(** * Wayback Tweets Viewer

    A shallow embedding of [waybacktweets.py]: the Streamlit script that
    fetches the archived captures of an account, builds a pandas table from
    the parsed records, filters it by date range and status code, and offers
    the result as a CSV download.

    The script is straight-line glue around three libraries.  Each library
    call is embedded as the function it computes on the values the script
    hands to it:
    - Python values: [str] is a [string] (the bytes of its UTF-8 form),
      a [datetime.date] is its day number, exceptions are values of [exn];
    - pandas ([Module pd]): a frame is a list of column names and a list of
      labelled rows, a [Timestamp] is a count of nanoseconds since the epoch;
    - Streamlit ([Module st]): every call that draws something is an event
      of the trace the script produces.
    The archive client and the capture parser are collaborators outside the
    repository; they are variables of the section that holds the script. *)

From Stdlib Require Import ZArith List String Ascii Lia Bool DecimalString.
From Stdlib.Strings Require Import Byte.
From stdpp Require Import base list.
Import ListNotations.
Local Open Scope string_scope.
Local Open Scope list_scope.
Local Open Scope Z_scope.

Infix "+:+" := String.append (at level 60, right associativity).

(** ** Python: exceptions, truthiness, dates *)

Inductive exn :=
| KeyError (key : string)
| TypeError (msg : string)
| ValueError (msg : string)
| Exception (msg : string).

(** [str(e)]: a [KeyError] prints the repr of its key. *)
Definition str (e : exn) : string :=
  match e with
  | KeyError key => "'" +:+ key +:+ "'"
  | TypeError msg | ValueError msg | Exception msg => msg
  end.

Inductive result (A : Type) : Type :=
| Ok (a : A)
| Raise (e : exn).
Arguments Ok {A} a.
Arguments Raise {A} e.

Definition bind {A B} (r : result A) (k : A -> result B) : result B :=
  match r with
  | Ok a => k a
  | Raise e => Raise e
  end.

Notation "x <- r ;; k" := (bind r (fun x => k))
  (at level 100, r at next level, right associativity).

Fixpoint mapM {A B} (f : A -> result B) (l : list A) : result (list B) :=
  match l with
  | [] => Ok []
  | x :: l' => y <- f x ;; ys <- mapM f l' ;; Ok (y :: ys)
  end.

(** [bool(s)] for a [str]: only the empty string is falsy. *)
Definition truthy_str (s : string) : bool :=
  match s with
  | EmptyString => false
  | String _ _ => true
  end.

(** [bool(l)] for a list. *)
Definition truthy_list {A} (l : list A) : bool :=
  match l with
  | [] => false
  | _ :: _ => true
  end.

(** [str(n)] for a natural number. *)
Definition str_nat (n : nat) : string := NilEmpty.string_of_uint (Nat.to_uint n).

(** A [datetime.date] is represented by its day number, 0 being 1970-01-01;
    Python orders dates chronologically, which is the order of day numbers.
    [st.date_input] only returns dates within ten years of today, far inside
    the range of a [Timestamp]. *)
Definition date := Z.

(** The day number of the civil date [y]-[m]-[d] (proleptic Gregorian). *)
Definition days_from_civil (y m d : Z) : date :=
  let y' := if m <=? 2 then y - 1 else y in
  let era := y' / 400 in
  let yoe := y' - era * 400 in
  let doy := (153 * (if m >? 2 then m - 3 else m + 9) + 2) / 5 + d - 1 in
  let doe := yoe * 365 + yoe / 4 - yoe / 100 + doy in
  era * 146097 + doe - 719468.

(** The civil date (year, month, day) of a day number. *)
Definition civil_from_days (z : date) : Z * Z * Z :=
  let z' := z + 719468 in
  let era := z' / 146097 in
  let doe := z' - era * 146097 in
  let yoe := (doe - doe / 1460 + doe / 36524 - doe / 146096) / 365 in
  let doy := doe - (365 * yoe + yoe / 4 - yoe / 100) in
  let mp := (5 * doy + 2) / 153 in
  let d := doy - (153 * mp + 2) / 5 + 1 in
  let m := if mp <? 10 then mp + 3 else mp - 9 in
  ((if m <=? 2 then yoe + era * 400 + 1 else yoe + era * 400), m, d).

(** ** pandas *)

Module pd.

Definition ns_per_second : Z := 1000000000.
Definition ns_per_day : Z := 86400 * ns_per_second.

(** [pd.Timestamp(d)] for a [datetime.date]: midnight at the start of [d]. *)
Definition Timestamp (d : date) : Z := d * ns_per_day.

(** [t.date()] for a [Timestamp]. *)
Definition Timestamp_date (t : Z) : date := t / ns_per_day.

(** A cell of a frame: a Python [str], the float NaN that fills a missing
    entry, a [Timestamp], or the null timestamp [NaT]. *)
Inductive cell :=
| Str (s : string)
| NaN
| Time (t : Z)
| NaT.

(** A row carries its index label, which selections keep. *)
Record row := Row { label : nat; cells : list cell }.

Record DataFrame := { columns : list string; rows : list row }.

(** A column [df[c]] is the list of its cells, in row order. *)
Definition Series := list cell.

(** [pd.DataFrame(data)] for a list of dicts: the columns are the keys in
    the order in which they first appear, and a row has NaN where its dict
    has no such key; the index is 0, 1, 2, ...  A dict is the list of its
    items in insertion order. *)
Fixpoint unique (seen l : list string) : list string :=
  match l with
  | [] => []
  | k :: l' =>
      if existsb (String.eqb k) seen then unique seen l'
      else k :: unique (k :: seen) l'
  end.

Fixpoint dict_get (d : list (string * cell)) (k : string) : option cell :=
  match d with
  | [] => None
  | (k', v) :: d' => if String.eqb k k' then Some v else dict_get d' k
  end.

Definition DataFrame_init (data : list (list (string * cell))) : DataFrame :=
  let cols := unique [] (concat (map (map fst) data)) in
  {| columns := cols;
     rows := imap (fun i d =>
               Row i (map (fun c => match dict_get d c with
                                    | Some v => v
                                    | None => NaN
                                    end) cols)) data |}.

(** [df.rename(columns=mapping, inplace=True)]: names outside the mapping
    stay, and a name of the mapping that is no column is ignored. *)
Fixpoint lookup_name (mapping : list (string * string)) (c : string) : string :=
  match mapping with
  | [] => c
  | (old, new) :: mapping' => if String.eqb c old then new else lookup_name mapping' c
  end.

Definition rename (mapping : list (string * string)) (df : DataFrame) : DataFrame :=
  {| columns := map (lookup_name mapping) (columns df); rows := rows df |}.

(** Position of a column name ([Index.get_loc]). *)
Fixpoint get_loc (c : string) (cols : list string) : option nat :=
  match cols with
  | [] => None
  | c' :: cols' => if String.eqb c c' then Some O else option_map S (get_loc c cols')
  end.

Definition at_loc (j : nat) (r : row) : cell := nth j (cells r) NaN.

(** [df[c]]: a [KeyError] when there is no such column. *)
Definition getitem (df : DataFrame) (c : string) : result Series :=
  match get_loc c (columns df) with
  | Some j => Ok (map (at_loc j) (rows df))
  | None => Raise (KeyError c)
  end.

(** [df[c] = values]: replaces the column, or appends it when it is new.
    The script only assigns a column computed from the frame itself; a
    value of another length is refused. *)
Definition setitem (df : DataFrame) (c : string) (values : Series) : result DataFrame :=
  if negb (length values =? length (rows df))%nat
  then Raise (ValueError "Length of values does not match length of index")
  else match get_loc c (columns df) with
       | Some j =>
           Ok {| columns := columns df;
                 rows := zip_with (fun r v => Row (label r) (<[j:=v]> (cells r)))
                           (rows df) values |}
       | None =>
           Ok {| columns := columns df ++ [c];
                 rows := zip_with (fun r v => Row (label r) (cells r ++ [v]))
                           (rows df) values |}
       end.

(** [pd.to_datetime(arg, errors="coerce")]: what does not parse, and a
    missing entry, become [NaT].  The parser of date strings is pandas's
    own and is a parameter here; it stands for the reading of a string as a
    timestamp without a zone.  A column of strings that carry a UTC offset
    becomes timezone-aware in pandas, and comparing it with
    [pd.Timestamp(date)] raises; such columns have no counterpart here. *)
Definition coerce (parse : string -> option Z) (c : cell) : cell :=
  match c with
  | Str s => match parse s with
             | Some t => Time t
             | None => NaT
             end
  | NaN => NaT
  | Time t => Time t
  | NaT => NaT
  end.

Definition to_datetime (parse : string -> option Z) (arg : Series) : Series :=
  map (coerce parse) arg.

(** [s >= t] and [s <= t] for a column and a [Timestamp]: elementwise, a
    null entry compares false, a [str] cannot be ordered against a
    [Timestamp]. *)
Definition ge_cell (t : Z) (c : cell) : result bool :=
  match c with
  | Time x => Ok (t <=? x)
  | NaT | NaN => Ok false
  | Str _ => Raise (TypeError "'>=' not supported between instances of 'str' and 'Timestamp'")
  end.

Definition le_cell (t : Z) (c : cell) : result bool :=
  match c with
  | Time x => Ok (x <=? t)
  | NaT | NaN => Ok false
  | Str _ => Raise (TypeError "'<=' not supported between instances of 'str' and 'Timestamp'")
  end.

Definition ge (s : Series) (t : Z) : result (list bool) := mapM (ge_cell t) s.
Definition le (s : Series) (t : Z) : result (list bool) := mapM (le_cell t) s.

(** [m1 & m2] on two boolean columns of one frame. *)
Definition and_ (m1 m2 : list bool) : list bool := zip_with andb m1 m2.

(** [s.isin(values)] for a list of strings. *)
Definition isin_cell (values : list string) (c : cell) : bool :=
  match c with
  | Str s => existsb (String.eqb s) values
  | _ => false
  end.

Definition isin (s : Series) (values : list string) : list bool :=
  map (isin_cell values) s.

(** [df[mask]] for a boolean column over the index of [df]: the rows whose
    entry is true, in order, with their labels. *)
Fixpoint select {A} (l : list A) (mask : list bool) : list A :=
  match l, mask with
  | x :: l', b :: mask' => if b then x :: select l' mask' else select l' mask'
  | _, _ => []
  end.

Definition getitem_mask (df : DataFrame) (mask : list bool) : result DataFrame :=
  if negb (length mask =? length (rows df))%nat
  then Raise (ValueError "Item wrong length")
  else Ok {| columns := columns df; rows := select (rows df) mask |}.

(** [len(df)] and [df.empty]. *)
Definition len (df : DataFrame) : nat := length (rows df).

Definition empty (df : DataFrame) : bool :=
  match rows df, columns df with
  | _ :: _, _ :: _ => false
  | _, _ => true
  end.

(** *** [df.to_csv(index=False)]

    The writer is Python's [csv] module with its defaults: fields joined
    by a comma, a field put between quote characters when it holds a
    comma, a quote character or a line feed (a quote character inside is
    written twice), every line ended by a line feed.  A row that consists
    of one empty field is written as two quote characters.  The first line
    names the columns.  A null entry is written as the empty field.

    Rows are written in chunks of [100000 // number of columns] rows, and
    the timestamps of a chunk share one format: the date alone when every
    timestamp of the chunk is a midnight, otherwise date and time with the
    fraction digits that the finest timestamp of the chunk needs. *)

Definition quotechar : ascii := "034".
Definition delimiter : ascii := ",".
Definition LF : ascii := "010".

Definition special (c : ascii) : bool :=
  Ascii.eqb c delimiter || Ascii.eqb c quotechar || Ascii.eqb c LF.

Fixpoint needs_quotes (s : string) : bool :=
  match s with
  | EmptyString => false
  | String c s' => special c || needs_quotes s'
  end.

(** The field between quotes: quote characters doubled, then the closing
    quote. *)
Fixpoint quoted_tail (s : string) : string :=
  match s with
  | EmptyString => String quotechar EmptyString
  | String c s' =>
      if Ascii.eqb c quotechar
      then String quotechar (String quotechar (quoted_tail s'))
      else String c (quoted_tail s')
  end.

Definition csv_field (s : string) : string :=
  if needs_quotes s then String quotechar (quoted_tail s) else s.

Fixpoint join_fields (fields : list string) : string :=
  match fields with
  | [] => EmptyString
  | [f] => csv_field f
  | f :: fields' => csv_field f +:+ String delimiter (join_fields fields')
  end.

Definition writerow (fields : list string) : string :=
  match fields with
  | [EmptyString] => String quotechar (String quotechar (String LF EmptyString))
  | _ => join_fields fields +:+ String LF EmptyString
  end.

(** Decimal numerals, zero-padded on the left to a width. *)
Definition str_Z (z : Z) : string :=
  if z <? 0 then "-" +:+ NilEmpty.string_of_uint (N.to_uint (Z.to_N (- z)))
  else NilEmpty.string_of_uint (N.to_uint (Z.to_N z)).

Fixpoint zeros (n : nat) : string :=
  match n with
  | O => EmptyString
  | S n' => String "0" (zeros n')
  end.

Definition zfill (width : nat) (z : Z) : string :=
  let s := str_Z z in zeros (width - String.length s) +:+ s.

Inductive datetime_format := DateOnly | Seconds | Millis | Micros | Nanos.

Fixpoint times (col : Series) : list Z :=
  match col with
  | [] => []
  | Time t :: col' => t :: times col'
  | _ :: col' => times col'
  end.

Definition get_format (col : Series) : datetime_format :=
  let ts := times col in
  if forallb (fun t => t mod ns_per_day =? 0) ts then DateOnly
  else if existsb (fun t => negb (t mod 1000 =? 0)) ts then Nanos
  else if existsb (fun t => negb (t mod 1000000 =? 0)) ts then Micros
  else if existsb (fun t => negb (t mod 1000000000 =? 0)) ts then Millis
  else Seconds.

Definition format_Timestamp (fmt : datetime_format) (t : Z) : string :=
  let '(y, m, d) := civil_from_days (Timestamp_date t) in
  let ns := t mod ns_per_day in
  let day := str_Z y +:+ "-" +:+ zfill 2 m +:+ "-" +:+ zfill 2 d in
  let clock := zfill 2 (ns / (3600 * ns_per_second)) +:+ ":"
               +:+ zfill 2 (ns / (60 * ns_per_second) mod 60) +:+ ":"
               +:+ zfill 2 (ns / ns_per_second mod 60) in
  match fmt with
  | DateOnly => day
  | Seconds => day +:+ " " +:+ clock
  | Millis => day +:+ " " +:+ clock +:+ "." +:+ zfill 3 (ns mod ns_per_second / 1000000)
  | Micros => day +:+ " " +:+ clock +:+ "." +:+ zfill 6 (ns mod ns_per_second / 1000)
  | Nanos => day +:+ " " +:+ clock +:+ "." +:+ zfill 9 (ns mod ns_per_second)
  end.

Definition format_cell (fmt : datetime_format) (c : cell) : string :=
  match c with
  | Str s => s
  | Time t => format_Timestamp fmt t
  | NaN | NaT => EmptyString
  end.

Definition chunksize (ncols : nat) : nat :=
  let n := 100000 / (match ncols with O => 1 | _ => Z.of_nat ncols end) in
  Z.to_nat (if n =? 0 then 1 else n).

(** [chunks n k cur l]: [l] cut into pieces of [n] items, the piece under
    construction holding [cur] (in reverse) with room for [k] more. *)
Fixpoint chunks {A} (n k : nat) (cur : list A) (l : list A) : list (list A) :=
  match l with
  | [] => match cur with [] => [] | _ => [rev cur] end
  | x :: l' =>
      match k with
      | O => rev cur :: chunks n (n - 1) [x] l'
      | S k' => chunks n k' (x :: cur) l'
      end
  end.

(** What is written piece after piece to the output. *)
Definition join (pieces : list string) : string :=
  fold_right String.append EmptyString pieces.

Definition save_chunk (ncols : nat) (chunk : list row) : string :=
  let fmts := map (fun j => get_format (map (at_loc j) chunk)) (seq 0 ncols) in
  join (map (fun r => writerow (zip_with format_cell fmts (cells r))) chunk).

Definition to_csv (df : DataFrame) : string :=
  let n := chunksize (length (columns df)) in
  writerow (columns df)
  +:+ join (map (save_chunk (length (columns df))) (chunks n n [] (rows df))).

(** [s.encode("utf-8")]: a [str] is held as its UTF-8 bytes. *)
Definition encode_utf8 (s : string) : list byte := list_byte_of_string s.

End pd.

(** ** Streamlit *)

Module st.

(** The calls of the script that put something on the page. *)
Inductive call :=
| title (body : string)
| caption (body : string)
| error (body : string)
| info (body : string)
| success (body : string)
| warning (body : string)
| write (body : string)
| dataframe (data : pd.DataFrame)
| download_button (label : string) (data : list byte) (file_name mime : string).

End st.

(** ** Effects of a run

    What a run does to the world, in order: it draws on the page, and it
    sends a request to the archive. *)

Inductive effect :=
| Draw (c : st.call)
| Request (username : string).

(** A piece of the script: the effects it performed, and its value or the
    exception that stopped it. *)
Definition script (A : Type) : Type := list effect * result A.

Definition emit (c : st.call) : script unit := ([Draw c], Ok tt).

Definition lift {A} (r : result A) : script A := ([], r).

Definition seq_bind {A B} (m : script A) (k : A -> script B) : script B :=
  match m with
  | (es, Ok a) => let (es', r) := k a in (es ++ es', r)
  | (es, Raise e) => (es, Raise e)
  end.

Notation "x <~ m ;; k" := (seq_bind m (fun x => k))
  (at level 100, m at next level, right associativity).
Notation "m ;;; k" := (seq_bind m (fun _ => k))
  (at level 100, right associativity).

(** [try: body except Exception as e: handler(e)]: the effects performed
    before the exception stay. *)
Definition try_except (body : script unit) (handler : exn -> list effect) : list effect :=
  match body with
  | (es, Ok _) => es
  | (es, Raise e) => es ++ handler e
  end.

(** ** The script *)

(** The fields the script asks the parser for.  A parsed record is the list
    of its items, keyed by these fields, every value a [str]; a record may
    lack a field. *)
Inductive field :=
| archived_timestamp
| original_tweet_url
| archived_tweet_url
| archived_statuscode.

Definition field_name (f : field) : string :=
  match f with
  | archived_timestamp => "archived_timestamp"
  | original_tweet_url => "original_tweet_url"
  | archived_tweet_url => "archived_tweet_url"
  | archived_statuscode => "archived_statuscode"
  end.

Definition ParsedRecord := list (field * string).

Definition items (record : ParsedRecord) : list (string * pd.cell) :=
  map (fun kv => (field_name (fst kv), pd.Str (snd kv))) record.

Definition field_options : list string :=
  map field_name
    [archived_timestamp; original_tweet_url; archived_tweet_url; archived_statuscode].

Definition renamed_columns : list (string * string) :=
  [("archived_timestamp", "timestamp");
   ("original_tweet_url", "original_url");
   ("archived_tweet_url", "archived_url");
   ("archived_statuscode", "statuscode")].

Section Script.

(** The collaborators: [WaybackTweets(username).get()], the call
    [TweetsParser(archived_tweets, username, field_options).parse()], and
    the reading of a date string inside [pd.to_datetime]. *)
Variable RawCapture : Type.
Variable WaybackTweets_get : string -> result (list RawCapture).
Variable TweetsParser_parse :
  list RawCapture -> string -> list string -> result (list ParsedRecord).
Variable parse_datetime : string -> option Z.

(** Steps 4 to 6: the table of the parsed records, its columns renamed,
    its timestamp column converted. *)
Definition build (parsed_tweets : list ParsedRecord) : result pd.DataFrame :=
  let df := pd.DataFrame_init (map items parsed_tweets) in
  let df := pd.rename renamed_columns df in
  ts <- pd.getitem df "timestamp" ;;
  pd.setitem df "timestamp" (pd.to_datetime parse_datetime ts).

(** Step 7. *)
Definition filter_by_date_range (df : pd.DataFrame) (start_date end_date : date)
  : result pd.DataFrame :=
  ts <- pd.getitem df "timestamp" ;;
  lower <- pd.ge ts (pd.Timestamp start_date) ;;
  ts' <- pd.getitem df "timestamp" ;;
  upper <- pd.le ts' (pd.Timestamp end_date) ;;
  pd.getitem_mask df (pd.and_ lower upper).

(** Step 8. *)
Definition filter_by_status_codes (filtered_df : pd.DataFrame)
  (status_codes_filter : list string) : result pd.DataFrame :=
  if truthy_list status_codes_filter then
    statuscode <- pd.getitem filtered_df "statuscode" ;;
    pd.getitem_mask filtered_df (pd.isin statuscode status_codes_filter)
  else Ok filtered_df.

(** Steps 7 and 8 together. *)
Definition filter_pipeline (df : pd.DataFrame) (start_date end_date : date)
  (status_codes_filter : list string) : result pd.DataFrame :=
  filtered_df <- filter_by_date_range df start_date end_date ;;
  filter_by_status_codes filtered_df status_codes_filter.

(** The bytes offered for download. *)
Definition encode (filtered_df : pd.DataFrame) : list byte :=
  pd.encode_utf8 (pd.to_csv filtered_df).

(** Step 9. *)
Definition display (username : string) (filtered_df : pd.DataFrame) : script unit :=
  emit (st.success ("Found " +:+ str_nat (pd.len filtered_df)
                    +:+ " tweets in the specified range.")) ;;;
  if negb (pd.empty filtered_df) then
    emit (st.write "Filtered Archived Tweets:") ;;;
    emit (st.dataframe filtered_df) ;;;
    let csv_data := encode filtered_df in
    emit (st.download_button "Download Filtered Tweets as CSV" csv_data
            (username +:+ "_archived_tweets.csv") "text/csv")
  else
    emit (st.warning "No tweets match the specified filters.").

(** The body of the [try]. *)
Definition fetch_and_display (username : string) (start_date end_date : date)
  (status_codes_filter : list string) : script unit :=
  archived_tweets <~ ([Request username], WaybackTweets_get username) ;;
  if truthy_list archived_tweets then
    parsed_tweets <~ lift (TweetsParser_parse archived_tweets username field_options) ;;
    df <~ lift (build parsed_tweets) ;;
    filtered_df <~ lift (filter_pipeline df start_date end_date status_codes_filter) ;;
    display username filtered_df
  else
    emit (st.warning "No archived tweets found for the given username.").

(** What a press of the Query button does. *)
Definition query (username : string) (start_date end_date : date)
  (status_codes_filter : list string) : list effect :=
  if negb (truthy_str username) then
    [Draw (st.error "Please enter a valid Twitter username.")]
  else if start_date >? end_date then
    [Draw (st.error "The end date must be after the start date.")]
  else
    Draw (st.info "Fetching archived tweets. Please wait...")
    :: try_except
         (fetch_and_display username start_date end_date status_codes_filter)
         (fun e => [Draw (st.error ("An error occurred: " +:+ str e))]).

(** One run of the script, for the values of its widgets. *)
Definition app (username : string) (start_date end_date : date)
  (status_codes_filter : list string) (button : bool) : list effect :=
  [Draw (st.title "Wayback Tweets Viewer");
   Draw (st.caption "Easily explore and download archived tweets using the Wayback Machine.")]
  ++ (if button then query username start_date end_date status_codes_filter else [])
  ++ [Draw (st.caption "Powered by Eclogic ")].

End Script.

(** ** A sample world

    One reading of date strings, the fourteen digits [YYYYMMDDhhmmss] of an
    archive timestamp, and collaborators that hand back what they are given;
    used to run the script on concrete inputs. *)

Module Sample.

Definition digit (c : ascii) : option Z :=
  let n := Z.of_nat (nat_of_ascii c) - 48 in
  if (0 <=? n) && (n <=? 9) then Some n else None.

Fixpoint number (acc : Z) (s : string) : option Z :=
  match s with
  | EmptyString => Some acc
  | String c s' => match digit c with
                   | Some n => number (10 * acc + n) s'
                   | None => None
                   end
  end.

Definition is_leap (y : Z) : bool :=
  (y mod 4 =? 0) && (negb (y mod 100 =? 0) || (y mod 400 =? 0)).

Definition days_in_month (y m : Z) : Z :=
  if m =? 2 then (if is_leap y then 29 else 28)
  else if (m =? 4) || (m =? 6) || (m =? 9) || (m =? 11) then 30
  else 31.

(** The nanosecond counts a [Timestamp] can hold. *)
Definition in_bounds (t : Z) : bool :=
  (- 9223372036854775807 <=? t) && (t <=? 9223372036854775807).

(** Fourteen digits that name a day of the calendar and a time of day,
    within the range of [Timestamp]; every other string is left unread,
    whatever pandas makes of it. *)
Definition parse_datetime (s : string) : option Z :=
  if negb (String.length s =? 14)%nat then None else
  match number 0 (substring 0 4 s), number 0 (substring 4 2 s),
        number 0 (substring 6 2 s), number 0 (substring 8 2 s),
        number 0 (substring 10 2 s), number 0 (substring 12 2 s) with
  | Some y, Some m, Some d, Some hh, Some mm, Some ss =>
      let t := pd.Timestamp (days_from_civil y m d)
               + ((hh * 60 + mm) * 60 + ss) * pd.ns_per_second in
      if (1 <=? m) && (m <=? 12) && (1 <=? d) && (d <=? days_in_month y m)
         && (hh <? 24) && (mm <? 60) && (ss <? 60) && in_bounds t
      then Some t
      else None
  | _, _, _, _, _, _ => None
  end.

(** A capture is handed over already parsed. *)
Definition RawCapture := ParsedRecord.

Definition capture (ts url archived status : string) : RawCapture :=
  [(archived_timestamp, ts); (original_tweet_url, url);
   (archived_tweet_url, archived); (archived_statuscode, status)].

Definition parse (archived_tweets : list RawCapture) (username : string)
  (fields : list string) : result (list ParsedRecord) := Ok archived_tweets.

(** An archive that holds [captures] for every account. *)
Definition archive (captures : list RawCapture) (username : string)
  : result (list RawCapture) := Ok captures.

Definition run (captures : list RawCapture) :=
  query RawCapture (archive captures) parse parse_datetime.

End Sample.

(** ** Reading a table

    The vocabulary of the statements below: the cell of a row under a named
    column, the columns a table must have for the filters to run, and the
    two readings of "within the date range". *)

Definition cell_of (df : pd.DataFrame) (c : string) (r : pd.row) : pd.cell :=
  match pd.get_loc c (pd.columns df) with
  | Some j => pd.at_loc j r
  | None => pd.NaN
  end.

Definition has_column (df : pd.DataFrame) (c : string) : bool :=
  match pd.get_loc c (pd.columns df) with
  | Some _ => true
  | None => false
  end.

Definition is_datetime (c : pd.cell) : bool :=
  match c with
  | pd.Time _ | pd.NaT => true
  | _ => false
  end.

Definition is_str (c : pd.cell) : bool :=
  match c with
  | pd.Str _ => true
  | _ => false
  end.

(** The table has a timestamp column, and it holds timestamps or nulls:
    what step 6 leaves behind. *)
Definition datetime_column (df : pd.DataFrame) : bool :=
  has_column df "timestamp"
  && forallb (fun r => is_datetime (cell_of df "timestamp" r)) (pd.rows df).

(** The comparison of step 7, cell by cell: the timestamp lies between the
    two midnights. *)
Definition between_midnights (start_date end_date : date) (c : pd.cell) : bool :=
  match c with
  | pd.Time t => (pd.Timestamp start_date <=? t) && (t <=? pd.Timestamp end_date)
  | _ => false
  end.

(** The range as the specification words it: the calendar date of the
    timestamp lies between the two dates. *)
Definition date_in_range (start_date end_date : date) (c : pd.cell) : bool :=
  match c with
  | pd.Time t => (start_date <=? pd.Timestamp_date t) && (pd.Timestamp_date t <=? end_date)
  | _ => false
  end.

(** The rows steps 7 and 8 let through. *)
Definition passes_date (df : pd.DataFrame) (start_date end_date : date) (r : pd.row) : bool :=
  between_midnights start_date end_date (cell_of df "timestamp" r).

Definition passes_status (df : pd.DataFrame) (status_codes_filter : list string)
  (r : pd.row) : bool :=
  pd.isin_cell status_codes_filter (cell_of df "statuscode" r).

Definition with_rows (df : pd.DataFrame) (rs : list pd.row) : pd.DataFrame :=
  {| pd.columns := pd.columns df; pd.rows := rs |}.

(** The columns of the table the specification describes, in its order. *)
Definition output_columns : list string :=
  ["timestamp"; "original_url"; "archived_url"; "statuscode"].

(** A reader of delimited text that only counts records: a line feed ends a
    record unless it stands between quotes. *)
Fixpoint count_records (in_quotes : bool) (s : string) : nat :=
  match s with
  | EmptyString => O
  | String c s' =>
      if Ascii.eqb c pd.quotechar then count_records (negb in_quotes) s'
      else if Ascii.eqb c pd.LF && negb in_quotes then S (count_records false s')
      else count_records in_quotes s'
  end.

(** Whether a trace shows a table, offers a download, asks the archive. *)
Definition shows_table (e : effect) : bool :=
  match e with
  | Draw (st.dataframe _) => true
  | _ => false
  end.

Definition offers_download (e : effect) : bool :=
  match e with
  | Draw (st.download_button _ _ _ _) => true
  | _ => false
  end.

Definition is_request (e : effect) : bool :=
  match e with
  | Request _ => true
  | _ => false
  end.

(** The rows that survive steps 7 and 8 together. *)
Definition passes (df : pd.DataFrame) (start_date end_date : date)
  (status_codes_filter : list string) (r : pd.row) : bool :=
  passes_date df start_date end_date r
  && (negb (truthy_list status_codes_filter) || passes_status df status_codes_filter r).

(** A table as step 6 hands it to the filters when the records carry their
    timestamp and status code: a timestamp column of timestamps and nulls,
    and a statuscode column. *)
Definition RecordTable (df : pd.DataFrame) : bool :=
  datetime_column df && has_column df "statuscode".

(** Every record carries the four fields, in the order they were asked for. *)
Definition complete (record : ParsedRecord) : bool :=
  match map fst record with
  | [archived_timestamp; original_tweet_url; archived_tweet_url; archived_statuscode] => true
  | _ => false
  end.

(** The column a field ends up under. *)
Definition column_of (f : field) : string :=
  pd.lookup_name renamed_columns (field_name f).

Definition has_field (f : field) (record : ParsedRecord) : bool :=
  existsb (fun kv => String.eqb (field_name f) (field_name (fst kv))) record.

(** Tables and dates of the scenarios. *)
Module Scenario.

Definition May_1 : date := days_from_civil 2024 5 1.
Definition May_31 : date := days_from_civil 2024 5 31.
Definition June_1 : date := days_from_civil 2024 6 1.

Definition noon (d : date) : Z := pd.Timestamp d + 12 * 3600 * pd.ns_per_second.

Definition table (rs : list pd.row) : pd.DataFrame :=
  {| pd.columns := output_columns; pd.rows := rs |}.

Definition capture_row (i : nat) (t : Z) (status : string) : pd.row :=
  pd.Row i [pd.Time t; pd.Str "https://twitter.com/jack/status/20";
            pd.Str "https://web.archive.org/web/2024/https://twitter.com/jack/status/20";
            pd.Str status].

(** Scenario A: three captures inside the range, with status codes 200,
    404, 200. *)
Definition A : pd.DataFrame :=
  table [capture_row 0 (noon (May_1 + 1)) "200";
         capture_row 1 (noon (May_1 + 2)) "404";
         capture_row 2 (noon (May_1 + 3)) "200"].

(** Five captures of April, for a query about May. *)
Definition April : list Sample.RawCapture :=
  map (fun ts => Sample.capture ts "https://twitter.com/jack/status/20"
                   "https://web.archive.org/web/2024/https://twitter.com/jack/status/20" "200")
    ["20240401120000"; "20240402120000"; "20240403120000";
     "20240404120000"; "20240405120000"].

(** Two records, the second without its status code. *)
Definition ragged : list ParsedRecord :=
  [Sample.capture "20240502120000" "https://twitter.com/jack/status/20"
     "https://web.archive.org/web/2024/https://twitter.com/jack/status/20" "200";
   [(archived_timestamp, "20240503120000");
    (original_tweet_url, "https://twitter.com/jack/status/21");
    (archived_tweet_url, "https://web.archive.org/web/2024/https://twitter.com/jack/status/21")]].

(** Captures at the two midnights of a range from May 1 to May 31, and one
    day outside either end. *)
Definition boundaries : pd.DataFrame :=
  table [capture_row 0 (noon (May_1 - 1)) "200";
         capture_row 1 (pd.Timestamp May_1) "200";
         capture_row 2 (pd.Timestamp May_31) "200";
         capture_row 3 (pd.Timestamp June_1) "200"].

End Scenario.

(** ** The stages of a run as one value

    Steps 2 to 8 for the captures the archive returned: parse, build,
    filter.  [fetch_and_display] runs these one after the other and stops at
    the first exception. *)

Definition filtered_table (RawCapture : Type)
  (TweetsParser_parse : list RawCapture -> string -> list string -> result (list ParsedRecord))
  (parse_datetime : string -> option Z)
  (archived_tweets : list RawCapture) (username : string)
  (start_date end_date : date) (status_codes_filter : list string)
  : result pd.DataFrame :=
  parsed_tweets <- TweetsParser_parse archived_tweets username field_options ;;
  df <- build parse_datetime parsed_tweets ;;
  filter_pipeline df start_date end_date status_codes_filter.

(** The value a record holds for a field, as the table constructor reads
    it. *)
Definition field_value (record : ParsedRecord) (f : field) : option pd.cell :=
  pd.dict_get (items record) (field_name f).

(** ** Reading delimited text back

    A reader for the dialect of the writer: fields separated by commas,
    records ended by a line feed, a field that opens with a quote character
    running to the next single quote character, with a doubled quote
    character standing for one. *)

Inductive reader_state := StartField | InField | InQuotes | QuoteInQuotes.

Definition snoc (s : string) (c : ascii) : string := s +:+ String c EmptyString.

Fixpoint read_csv (st : reader_state) (field : string) (record : list string)
  (s : string) : list (list string) :=
  match s with
  | EmptyString =>
      match st, record with
      | StartField, [] => []
      | _, _ => [record ++ [field]]
      end
  | String c s' =>
      match st with
      | InQuotes =>
          if Ascii.eqb c pd.quotechar then read_csv QuoteInQuotes field record s'
          else read_csv InQuotes (snoc field c) record s'
      | _ =>
          if Ascii.eqb c pd.quotechar then
            match st with
            | StartField => read_csv InQuotes field record s'
            | QuoteInQuotes => read_csv InQuotes (snoc field c) record s'
            | _ => read_csv InField (snoc field c) record s'
            end
          else if Ascii.eqb c pd.delimiter then
            read_csv StartField EmptyString (record ++ [field]) s'
          else if Ascii.eqb c pd.LF then
            (record ++ [field]) :: read_csv StartField EmptyString [] s'
          else read_csv InField (snoc field c) record s'
      end
  end.

Definition reader (s : string) : list (list string) :=
  read_csv StartField EmptyString [] s.

(** The text of every cell of a chunk, row by row, and of a table. *)
Definition chunk_values (ncols : nat) (chunk : list pd.row) : list (list string) :=
  let fmts := map (fun j => pd.get_format (map (pd.at_loc j) chunk)) (seq 0 ncols) in
  map (fun r => zip_with pd.format_cell fmts (pd.cells r)) chunk.

Definition values_for_csv (df : pd.DataFrame) : list (list string) :=
  let n := pd.chunksize (length (pd.columns df)) in
  concat (map (chunk_values (length (pd.columns df))) (pd.chunks n n [] (pd.rows df))).

(** Every row has a cell under every column. *)
Definition rectangular (df : pd.DataFrame) : bool :=
  forallb (fun r => (length (pd.cells r) =? length (pd.columns df))%nat) (pd.rows df).

(** The text that stands for a cell: a string stands for itself, a null for
    the empty field, a timestamp for itself in one of the formats. *)
Definition cell_text (c : pd.cell) (s : string) : Prop :=
  match c with
  | pd.Str x => s = x
  | pd.NaN | pd.NaT => s = EmptyString
  | pd.Time t => exists fmt, s = pd.format_Timestamp fmt t
  end.

(** Records for the cases below. *)
Module Cases.

(** Two captures, the first with a timestamp that cannot be read. *)
Definition unreadable : list ParsedRecord :=
  [Sample.capture "yesterday" "https://twitter.com/jack/status/20"
     "https://web.archive.org/web/2024/https://twitter.com/jack/status/20" "200";
   Sample.capture "20240502120000" "https://twitter.com/jack/status/21"
     "https://web.archive.org/web/2024/https://twitter.com/jack/status/21" "200"].



End Cases.

(** * Lemmas *)

(** ** Lists, masks and fallible maps *)

Section Lists.

Context {A B : Type}.

Lemma select_map (f : A -> bool) (l : list A) :
  pd.select l (map f l) = List.filter f l.
Proof.
  induction l as [|x l IH]; simpl; [reflexivity|].
  rewrite IH. reflexivity.
Qed.

Lemma zip_with_andb_map (f g : A -> bool) (l : list A) :
  pd.and_ (map f l) (map g l) = map (fun x => f x && g x) l.
Proof.
  unfold pd.and_. induction l as [|x l IH]; simpl; congruence.
Qed.

Lemma mapM_Ok (f : A -> result B) (l : list A) (ys : list B) :
  mapM f l = Ok ys -> Forall2 (fun x y => f x = Ok y) l ys.
Proof.
  revert ys. induction l as [|x l IH]; simpl; intros ys H.
  - injection H as <-. constructor.
  - destruct (f x) as [y|e] eqn:Hx; simpl in H; [|discriminate].
    destruct (mapM f l) as [ys'|e]; simpl in H; [|discriminate].
    injection H as <-. constructor; [assumption|]. apply IH. reflexivity.
Qed.

Lemma mapM_map (f : A -> result B) (g : A -> B) (l : list A) :
  Forall (fun x => f x = Ok (g x)) l -> mapM f l = Ok (map g l).
Proof.
  induction 1 as [|x l Hx _ IH]; simpl; [reflexivity|].
  rewrite Hx, IH. reflexivity.
Qed.

Lemma filter_sublist (f : A -> bool) (l : list A) :
  List.filter f l `sublist_of` l.
Proof.
  induction l as [|x l IH]; simpl; [constructor|].
  destruct (f x); [apply sublist_skip | apply sublist_cons]; exact IH.
Qed.

Lemma filter_all (f : A -> bool) (l : list A) :
  Forall (fun x => f x = true) l -> List.filter f l = l.
Proof.
  induction 1 as [|x l Hx _ IH]; simpl; [reflexivity|].
  rewrite Hx, IH. reflexivity.
Qed.

Lemma Forall_filter_keep (P : A -> Prop) (f : A -> bool) (l : list A) :
  Forall P l -> Forall P (List.filter f l).
Proof.
  induction 1 as [|x l Hx _ IH]; simpl; [constructor|].
  destruct (f x); [constructor|]; assumption.
Qed.

Lemma Forall_filter_true (f : A -> bool) (l : list A) :
  Forall (fun x => f x = true) (List.filter f l).
Proof.
  induction l as [|x l IH]; simpl; [constructor|].
  destruct (f x) eqn:Hx; [constructor|]; assumption.
Qed.

Lemma filter_filter_andb (f g : A -> bool) (l : list A) :
  List.filter g (List.filter f l) = List.filter (fun x => f x && g x) l.
Proof.
  induction l as [|x l IH]; simpl; [reflexivity|].
  destruct (f x); simpl; [destruct (g x)|]; congruence.
Qed.

End Lists.

(** ** The two filters as list filters *)

Section Filters.

Implicit Types (df : pd.DataFrame) (r : pd.row) (c : pd.cell) (codes : list string).

Lemma cell_of_loc df name j r :
  pd.get_loc name (pd.columns df) = Some j -> cell_of df name r = pd.at_loc j r.
Proof. unfold cell_of. intros ->. reflexivity. Qed.

Lemma cell_of_with_rows df rs name r :
  cell_of (with_rows df rs) name r = cell_of df name r.
Proof. reflexivity. Qed.

Lemma getitem_column df name :
  has_column df name = true ->
  pd.getitem df name = Ok (map (cell_of df name) (pd.rows df)).
Proof.
  unfold has_column, pd.getitem, cell_of.
  destruct (pd.get_loc name (pd.columns df)); [reflexivity | discriminate].
Qed.

Lemma getitem_Ok df name s :
  pd.getitem df name = Ok s ->
  has_column df name = true /\ s = map (cell_of df name) (pd.rows df).
Proof.
  unfold has_column, pd.getitem, cell_of.
  destruct (pd.get_loc name (pd.columns df)); [|discriminate].
  intros [= <-]. split; reflexivity.
Qed.

Lemma getitem_mask_map df (f : pd.row -> bool) :
  pd.getitem_mask df (map f (pd.rows df)) = Ok (with_rows df (List.filter f (pd.rows df))).
Proof.
  unfold pd.getitem_mask. rewrite length_map, Nat.eqb_refl. simpl.
  rewrite select_map. reflexivity.
Qed.

Lemma ge_total (col : pd.Series) t :
  Forall (fun c => is_str c = false) col ->
  pd.ge col t = Ok (map (fun c => match c with pd.Time x => t <=? x | _ => false end) col).
Proof.
  intros H. apply mapM_map. eapply Forall_impl; [exact H|].
  intros [s| |x|]; simpl; intros Hs; try reflexivity. discriminate.
Qed.

Lemma le_total (col : pd.Series) t :
  Forall (fun c => is_str c = false) col ->
  pd.le col t = Ok (map (fun c => match c with pd.Time x => x <=? t | _ => false end) col).
Proof.
  intros H. apply mapM_map. eapply Forall_impl; [exact H|].
  intros [s| |x|]; simpl; intros Hs; try reflexivity. discriminate.
Qed.

Lemma ge_Ok (col : pd.Series) t m :
  pd.ge col t = Ok m -> Forall (fun c => is_str c = false) col.
Proof.
  intros H. apply mapM_Ok in H.
  induction H as [|c b col m Hc _ IH]; constructor; [|exact IH].
  destruct c; simpl in *; congruence.
Qed.

Lemma date_masks (col : pd.Series) start_date end_date :
  pd.and_
    (map (fun c => match c with pd.Time x => pd.Timestamp start_date <=? x | _ => false end) col)
    (map (fun c => match c with pd.Time x => x <=? pd.Timestamp end_date | _ => false end) col)
  = map (between_midnights start_date end_date) col.
Proof.
  rewrite zip_with_andb_map. apply map_ext. intros [s| |x|]; reflexivity.
Qed.

(** Step 7 runs on every table whose timestamp column holds no [str], and
    is then the list filter by [passes_date]. *)
Lemma filter_by_date_range_total df start_date end_date :
  has_column df "timestamp" = true ->
  Forall (fun r => is_str (cell_of df "timestamp" r) = false) (pd.rows df) ->
  filter_by_date_range df start_date end_date
  = Ok (with_rows df (List.filter (passes_date df start_date end_date) (pd.rows df))).
Proof.
  intros Hcol Hstr. unfold filter_by_date_range.
  rewrite (getitem_column _ _ Hcol). simpl.
  assert (Hs : Forall (fun c => is_str c = false) (map (cell_of df "timestamp") (pd.rows df))).
  { apply Forall_map. exact Hstr. }
  rewrite (ge_total _ _ Hs), (le_total _ _ Hs). simpl.
  rewrite date_masks, map_map. apply getitem_mask_map.
Qed.

Lemma filter_by_date_range_Ok df start_date end_date df' :
  filter_by_date_range df start_date end_date = Ok df' ->
  has_column df "timestamp" = true
  /\ Forall (fun r => is_str (cell_of df "timestamp" r) = false) (pd.rows df)
  /\ df' = with_rows df (List.filter (passes_date df start_date end_date) (pd.rows df)).
Proof.
  intros H.
  assert (Hcol : has_column df "timestamp" = true).
  { unfold filter_by_date_range in H.
    destruct (pd.getitem df "timestamp") as [s|e] eqn:Hg; [|discriminate].
    apply getitem_Ok in Hg. tauto. }
  assert (Hstr : Forall (fun r => is_str (cell_of df "timestamp" r) = false) (pd.rows df)).
  { unfold filter_by_date_range in H.
    rewrite (getitem_column _ _ Hcol) in H. simpl in H.
    destruct (pd.ge _ _) as [m|e] eqn:Hge; [|discriminate].
    apply ge_Ok in Hge. apply Forall_map in Hge. exact Hge. }
  rewrite (filter_by_date_range_total _ _ _ Hcol Hstr) in H.
  injection H as <-. auto.
Qed.

(** Step 8 is skipped for an empty selection, and is otherwise the list
    filter by [passes_status]; it needs the statuscode column. *)
Lemma filter_by_status_codes_nil df :
  filter_by_status_codes df [] = Ok df.
Proof. reflexivity. Qed.

Lemma filter_by_status_codes_total df codes :
  codes <> [] ->
  has_column df "statuscode" = true ->
  filter_by_status_codes df codes
  = Ok (with_rows df (List.filter (passes_status df codes) (pd.rows df))).
Proof.
  intros Hne Hcol. unfold filter_by_status_codes.
  destruct codes as [|code codes]; [congruence|]. simpl truthy_list. cbv iota.
  rewrite (getitem_column _ _ Hcol). simpl bind.
  unfold pd.isin. rewrite map_map. apply getitem_mask_map.
Qed.

Lemma filter_by_status_codes_Ok df codes df' :
  filter_by_status_codes df codes = Ok df' ->
  (codes = [] /\ df' = df)
  \/ (codes <> [] /\ has_column df "statuscode" = true
      /\ df' = with_rows df (List.filter (passes_status df codes) (pd.rows df))).
Proof.
  intros H. destruct codes as [|code codes].
  - left. injection H as <-. auto.
  - right. assert (Hne : code :: codes <> []) by discriminate.
    assert (Hcol : has_column df "statuscode" = true).
    { unfold filter_by_status_codes in H. simpl truthy_list in H. cbv iota in H.
      destruct (pd.getitem df "statuscode") as [s|e] eqn:Hg; [|discriminate].
      apply getitem_Ok in Hg. tauto. }
    rewrite (filter_by_status_codes_total _ _ Hne Hcol) in H.
    injection H as <-. auto.
Qed.

Lemma passes_with_rows df rs start_date end_date codes :
  passes (with_rows df rs) start_date end_date codes = passes df start_date end_date codes.
Proof. reflexivity. Qed.

(** The two steps together: they run when the timestamp column holds no
    [str] and, for a non-empty selection, the statuscode column exists;
    what they return holds the rows of [df] that pass both tests, in the
    order of [df], under the columns of [df]. *)
Lemma filter_pipeline_total df start_date end_date codes :
  has_column df "timestamp" = true ->
  Forall (fun r => is_str (cell_of df "timestamp" r) = false) (pd.rows df) ->
  codes = [] \/ has_column df "statuscode" = true ->
  filter_pipeline df start_date end_date codes
  = Ok (with_rows df (List.filter (passes df start_date end_date codes) (pd.rows df))).
Proof.
  intros Hts Hstr Hsc. unfold filter_pipeline.
  rewrite (filter_by_date_range_total _ _ _ Hts Hstr). simpl bind.
  destruct codes as [|code codes].
  - rewrite filter_by_status_codes_nil. unfold with_rows. do 2 f_equal.
    apply List.filter_ext. intros r. unfold passes. simpl.
    rewrite andb_true_r. reflexivity.
  - destruct Hsc as [|Hsc]; [discriminate|].
    rewrite filter_by_status_codes_total; [|discriminate|exact Hsc].
    change (pd.rows (with_rows df ?rs)) with rs.
    change (passes_status (with_rows df ?rs) ?cs) with (passes_status df cs).
    rewrite filter_filter_andb. reflexivity.
Qed.

Lemma filter_pipeline_Ok df start_date end_date codes df' :
  filter_pipeline df start_date end_date codes = Ok df' ->
  has_column df "timestamp" = true
  /\ Forall (fun r => is_str (cell_of df "timestamp" r) = false) (pd.rows df)
  /\ (codes = [] \/ has_column df "statuscode" = true)
  /\ df' = with_rows df (List.filter (passes df start_date end_date codes) (pd.rows df)).
Proof.
  intros H.
  assert (Hpre : has_column df "timestamp" = true
                 /\ Forall (fun r => is_str (cell_of df "timestamp" r) = false) (pd.rows df)
                 /\ (codes = [] \/ has_column df "statuscode" = true)).
  { unfold filter_pipeline in H.
    destruct (filter_by_date_range df start_date end_date) as [fd|e] eqn:Hd; [|discriminate].
    simpl in H. apply filter_by_date_range_Ok in Hd as (Hts & Hstr & ->).
    apply filter_by_status_codes_Ok in H as [[-> _]|(_ & Hsc & _)]; auto. }
  destruct Hpre as (Hts & Hstr & Hsc).
  rewrite (filter_pipeline_total _ _ _ _ Hts Hstr Hsc) in H.
  injection H as <-. auto.
Qed.

Lemma datetime_column_no_str df :
  datetime_column df = true ->
  has_column df "timestamp" = true
  /\ Forall (fun r => is_str (cell_of df "timestamp" r) = false) (pd.rows df).
Proof.
  unfold datetime_column. intros [Hcol Hall]%andb_prop. split; [exact Hcol|].
  rewrite forallb_forall in Hall. apply List.Forall_forall. intros r Hr.
  specialize (Hall r Hr). destruct (cell_of df "timestamp" r); simpl in *; congruence.
Qed.

Lemma RecordTable_filterable df codes :
  RecordTable df = true ->
  has_column df "timestamp" = true
  /\ Forall (fun r => is_str (cell_of df "timestamp" r) = false) (pd.rows df)
  /\ (codes = [] \/ has_column df "statuscode" = true).
Proof.
  unfold RecordTable. intros [Hd Hs]%andb_prop.
  apply datetime_column_no_str in Hd as [? ?]. auto.
Qed.

End Filters.

(** ** The date range *)

Section DateRange.

Implicit Types (df : pd.DataFrame) (r : pd.row) (c : pd.cell).

Lemma Timestamp_date_Timestamp (d : date) : pd.Timestamp_date (pd.Timestamp d) = d.
Proof.
  unfold pd.Timestamp_date, pd.Timestamp. apply Z.div_mul. discriminate.
Qed.

(** The lower comparison is the comparison of dates; the upper one lets
    through, of the end date, only its first instant. *)
Lemma between_midnights_Time (start_date end_date : date) (t : Z) :
  between_midnights start_date end_date (pd.Time t) = true
  <-> start_date <= pd.Timestamp_date t
      /\ (pd.Timestamp_date t < end_date \/ t = pd.Timestamp end_date).
Proof.
  unfold between_midnights, pd.Timestamp_date, pd.Timestamp.
  rewrite andb_true_iff, !Z.leb_le.
  change pd.ns_per_day with 86400000000000.
  Z.to_euclidean_division_equations. lia.
Qed.

(** What step 7 keeps has its date in the range. *)
Lemma between_midnights_date_in_range (start_date end_date : date) c :
  between_midnights start_date end_date c = true ->
  date_in_range start_date end_date c = true.
Proof.
  destruct c as [s| |t|]; try discriminate.
  intros H. apply between_midnights_Time in H.
  unfold date_in_range. rewrite andb_true_iff, !Z.leb_le.
  destruct H as [H1 [H2| ->]]; [lia|].
  rewrite Timestamp_date_Timestamp in *. lia.
Qed.

Lemma passes_date_In df (start_date end_date : date) r :
  In r (List.filter (passes_date df start_date end_date) (pd.rows df))
  <-> In r (pd.rows df)
      /\ exists t, cell_of df "timestamp" r = pd.Time t
                   /\ pd.Timestamp start_date <= t <= pd.Timestamp end_date.
Proof.
  rewrite filter_In. unfold passes_date, between_midnights.
  split; intros [Hr H]; (split; [exact Hr|]).
  - destruct (cell_of df "timestamp" r) as [s| |t|]; try discriminate.
    exists t. apply andb_prop in H as [H1 H2]. split; [reflexivity|lia].
  - destruct H as (t & -> & H). apply andb_true_intro. lia.
Qed.

End DateRange.

(** ** Claims about the filters *)

(** C1. The claim: the date filter keeps a row exactly when its timestamp is
    not null and the calendar date of the timestamp lies between
    [start_date] and [end_date].  The script compares the timestamp with
    the midnight that opens [end_date]: a capture made at noon of the end
    date has its date in the range and is dropped all the same. *)
Theorem C1_noon_of_end_date_dropped :
  let df := Scenario.table [Scenario.capture_row 0 (Scenario.noon Scenario.May_31) "200"] in
  RecordTable df = true
  /\ Scenario.May_1 <= Scenario.May_31
  /\ Forall (fun r => date_in_range Scenario.May_1 Scenario.May_31
                        (cell_of df "timestamp" r) = true) (pd.rows df)
  /\ filter_by_date_range df Scenario.May_1 Scenario.May_31 = Ok (Scenario.table []).
Proof.
  cbv zeta. repeat split.
  - discriminate.
  - repeat constructor.
Qed.

Lemma isin_cell_true (codes : list string) (c : pd.cell) :
  pd.isin_cell codes c = true <-> exists s, c = pd.Str s /\ In s codes.
Proof.
  destruct c as [s| |t|]; simpl.
  - rewrite existsb_exists. split.
    + intros (s' & Hin & Heq). apply String.eqb_eq in Heq as ->. eauto.
    + intros (s' & [= <-] & Hin). exists s. split; [exact Hin|apply String.eqb_refl].
  - split; [discriminate|]. intros (s & [=] & _).
  - split; [discriminate|]. intros (s & [=] & _).
  - split; [discriminate|]. intros (s & [=] & _).
Qed.

(** C4. With an empty selection of status codes step 8 removes no row; with
    a non-empty one it keeps exactly the rows whose statuscode is a string
    of the selection, in their order.  On the table of scenario A (status
    codes 200, 404, 200, all dates in range) and the selection ["200"], the
    filters return the first and the third row. *)
Theorem C4_status_filter (df : pd.DataFrame) (codes : list string) :
  (codes = [] -> filter_by_status_codes df codes = Ok df)
  /\ (codes <> [] -> has_column df "statuscode" = true ->
      exists df',
        filter_by_status_codes df codes = Ok df'
        /\ pd.columns df' = pd.columns df
        /\ pd.rows df' = List.filter (passes_status df codes) (pd.rows df)
        /\ forall r, In r (pd.rows df')
                     <-> In r (pd.rows df)
                         /\ exists s, cell_of df "statuscode" r = pd.Str s /\ In s codes)
  /\ filter_pipeline Scenario.A Scenario.May_1 Scenario.May_31 ["200"]
     = Ok (Scenario.table
             [Scenario.capture_row 0 (Scenario.noon (Scenario.May_1 + 1)) "200";
              Scenario.capture_row 2 (Scenario.noon (Scenario.May_1 + 3)) "200"]).
Proof.
  split; [|split].
  - intros ->. apply filter_by_status_codes_nil.
  - intros Hne Hcol. eexists. split; [apply filter_by_status_codes_total; assumption|].
    split; [reflexivity|]. split; [reflexivity|].
    intros r. simpl. rewrite filter_In. unfold passes_status.
    rewrite isin_cell_true. reflexivity.
  - reflexivity.
Qed.

Lemma C4_status_filter_witness :
  filter_by_status_codes Scenario.A [] = Ok Scenario.A
  /\ exists df',
       filter_by_status_codes Scenario.A ["200"; "403"] = Ok df'
       /\ pd.columns df' = pd.columns Scenario.A
       /\ pd.rows df' = List.filter (passes_status Scenario.A ["200"; "403"]) (pd.rows Scenario.A)
       /\ forall r, In r (pd.rows df')
                    <-> In r (pd.rows Scenario.A)
                        /\ exists s, cell_of Scenario.A "statuscode" r = pd.Str s
                                     /\ In s ["200"; "403"].
Proof.
  split.
  - apply (C4_status_filter Scenario.A []). reflexivity.
  - apply (C4_status_filter Scenario.A ["200"; "403"]); [discriminate | reflexivity].
Defined.

(** C6. The filters never add a row: what they return has at most as many
    rows as the table, and its rows are the rows of the table that pass, each
    one kept as often as it occurs and in the order of the table.  On a
    record table the filters do return. *)
Theorem C6_filter_subsequence (df : pd.DataFrame) (start_date end_date : date)
  (codes : list string) :
  (RecordTable df = true ->
   exists df', filter_pipeline df start_date end_date codes = Ok df')
  /\ forall df', filter_pipeline df start_date end_date codes = Ok df' ->
       (pd.len df' <= pd.len df)%nat
       /\ pd.rows df' `sublist_of` pd.rows df
       /\ pd.rows df' = List.filter (passes df start_date end_date codes) (pd.rows df)
       /\ pd.columns df' = pd.columns df.
Proof.
  split.
  - intros Hrt. destruct (RecordTable_filterable df codes Hrt) as (Hts & Hstr & Hsc).
    eexists. apply filter_pipeline_total; assumption.
  - intros df' H. apply filter_pipeline_Ok in H as (_ & _ & _ & ->). simpl.
    pose proof (filter_sublist (passes df start_date end_date codes) (pd.rows df)) as Hsub.
    split; [|auto]. unfold pd.len. simpl. apply sublist_length. exact Hsub.
Qed.

Lemma C6_filter_subsequence_witness :
  exists df',
    filter_pipeline Scenario.A Scenario.May_1 Scenario.May_31 ["200"] = Ok df'
    /\ (pd.len df' <= pd.len Scenario.A)%nat
    /\ pd.rows df' `sublist_of` pd.rows Scenario.A.
Proof.
  destruct (C6_filter_subsequence Scenario.A Scenario.May_1 Scenario.May_31 ["200"])
    as [Hex Hsub].
  destruct (Hex eq_refl) as [df' Hdf']. exists df'.
  destruct (Hsub df' Hdf') as (Hlen & Hs & _). auto.
Defined.

(** C7. A row whose timestamp is the midnight of [start_date], or the
    midnight of [end_date], passes the date filter; a row whose timestamp
    falls on the day before [start_date] or on the day after [end_date] does
    not. *)
Theorem C7_date_boundaries (df : pd.DataFrame) (start_date end_date : date) :
  start_date <= end_date ->
  datetime_column df = true ->
  exists df',
    filter_by_date_range df start_date end_date = Ok df'
    /\ forall r, In r (pd.rows df) ->
         (cell_of df "timestamp" r = pd.Time (pd.Timestamp start_date) -> In r (pd.rows df'))
         /\ (cell_of df "timestamp" r = pd.Time (pd.Timestamp end_date) -> In r (pd.rows df'))
         /\ (forall t, cell_of df "timestamp" r = pd.Time t ->
               pd.Timestamp_date t = start_date - 1 \/ pd.Timestamp_date t = end_date + 1 ->
               ~ In r (pd.rows df')).
Proof.
  intros Hle Hdt. apply datetime_column_no_str in Hdt as [Hcol Hstr].
  eexists. split; [apply filter_by_date_range_total; assumption|].
  intros r Hr. simpl. rewrite !filter_In. unfold passes_date.
  split; [|split].
  - intros ->. split; [exact Hr|]. apply between_midnights_Time.
    rewrite Timestamp_date_Timestamp. split; [lia|].
    destruct (Z.eq_dec start_date end_date) as [->|Hne]; [right; reflexivity|left; lia].
  - intros ->. split; [exact Hr|]. apply between_midnights_Time.
    rewrite Timestamp_date_Timestamp. split; [exact Hle|right; reflexivity].
  - intros t Ht Hday Hin. apply filter_In in Hin as [_ Hin].
    unfold passes_date in Hin. rewrite Ht in Hin.
    apply between_midnights_Time in Hin.
    destruct Hin as [H1 [H2|H2]]; [lia|]. subst t.
    rewrite Timestamp_date_Timestamp in *. lia.
Qed.

Lemma C7_date_boundaries_witness :
  exists df',
    filter_by_date_range Scenario.boundaries Scenario.May_1 Scenario.May_31 = Ok df'
    /\ forall r, In r (pd.rows Scenario.boundaries) ->
         (cell_of Scenario.boundaries "timestamp" r = pd.Time (pd.Timestamp Scenario.May_1)
          -> In r (pd.rows df'))
         /\ (cell_of Scenario.boundaries "timestamp" r = pd.Time (pd.Timestamp Scenario.May_31)
             -> In r (pd.rows df'))
         /\ (forall t, cell_of Scenario.boundaries "timestamp" r = pd.Time t ->
               pd.Timestamp_date t = Scenario.May_1 - 1
               \/ pd.Timestamp_date t = Scenario.May_31 + 1 ->
               ~ In r (pd.rows df')).
Proof.
  apply (C7_date_boundaries Scenario.boundaries Scenario.May_1 Scenario.May_31).
  - vm_compute. discriminate.
  - reflexivity.
Defined.

(** C8. Filtering what the filters returned, with the same dates and the
    same selection, returns it unchanged; on a record table the filters do
    return. *)
Theorem C8_filter_idempotent (df : pd.DataFrame) (start_date end_date : date)
  (codes : list string) :
  (RecordTable df = true ->
   exists df', filter_pipeline df start_date end_date codes = Ok df')
  /\ forall df', filter_pipeline df start_date end_date codes = Ok df' ->
       filter_pipeline df' start_date end_date codes = Ok df'.
Proof.
  split.
  - intros Hrt. destruct (RecordTable_filterable df codes Hrt) as (Hts & Hstr & Hsc).
    eexists. apply filter_pipeline_total; assumption.
  - intros df' H. apply filter_pipeline_Ok in H as (Hts & Hstr & Hsc & ->).
    rewrite filter_pipeline_total.
    + rewrite passes_with_rows. simpl pd.rows.
      rewrite (filter_all _ _ (Forall_filter_true _ _)). reflexivity.
    + exact Hts.
    + simpl pd.rows. apply Forall_filter_keep. exact Hstr.
    + exact Hsc.
Qed.

Lemma C8_filter_idempotent_witness :
  exists df',
    filter_pipeline Scenario.A Scenario.May_1 Scenario.May_31 ["200"] = Ok df'
    /\ filter_pipeline df' Scenario.May_1 Scenario.May_31 ["200"] = Ok df'.
Proof.
  destruct (C8_filter_idempotent Scenario.A Scenario.May_1 Scenario.May_31 ["200"])
    as [Hex Hidem].
  destruct (Hex eq_refl) as [df' Hdf']. exists df'. split; [exact Hdf'|].
  apply Hidem. exact Hdf'.
Defined.

(** ** Claims about a whole query *)

Section Queries.

Variable RawCapture : Type.
Variable WaybackTweets_get : string -> result (list RawCapture).
Variable TweetsParser_parse :
  list RawCapture -> string -> list string -> result (list ParsedRecord).
Variable parse_datetime : string -> option Z.

Local Abbreviation run := (query RawCapture WaybackTweets_get TweetsParser_parse parse_datetime).

(** Once both checks pass, the query announces the fetch and asks the
    archive for the handle as it was typed. *)
Lemma query_fetches (username : string) (start_date end_date : date)
  (codes : list string) :
  truthy_str username = true ->
  start_date <= end_date ->
  exists rest,
    run username start_date end_date codes
    = Draw (st.info "Fetching archived tweets. Please wait...")
      :: Request username :: rest.
Proof.
  intros Hu Hle. unfold query. rewrite Hu. simpl negb. cbv iota.
  destruct (start_date >? end_date) eqn:Hgt; [lia|].
  unfold fetch_and_display, seq_bind.
  destruct (WaybackTweets_get username) as [archived_tweets|e]; simpl.
  - match goal with |- context [let (_, _) := ?m in _] => destruct m as [es r] end.
    destruct r; simpl; eexists; reflexivity.
  - eexists. reflexivity.
Qed.

(** C5, as amended.  When the start date is after the end date the query
    draws one error message and nothing else: it sends no request, shows no
    table, offers no download.  The handle is checked before the dates, so
    the message is the one about the dates for every handle but the empty
    one, and the one about the username for the empty handle. *)
Theorem C5_end_before_start (username : string) (start_date end_date : date)
  (codes : list string) :
  start_date > end_date ->
  run username start_date end_date codes
  = [Draw (st.error (if truthy_str username
                     then "The end date must be after the start date."
                     else "Please enter a valid Twitter username."))]
  /\ Forall (fun ef => is_request ef = false /\ shows_table ef = false
                       /\ offers_download ef = false)
       (run username start_date end_date codes).
Proof.
  intros Hgt. apply Z.gtb_gt in Hgt. unfold query. rewrite Hgt.
  destruct (truthy_str username); simpl.
  - split; [reflexivity|]. repeat constructor.
  - split; [reflexivity|]. repeat constructor.
Qed.

(** C10. The first check turns away the empty handle and no other: the
    message about the username is the whole output exactly for the empty
    string, and every other handle, a run of blanks included, goes on to
    the archive once the dates are in order. *)
Theorem C10_blank_handle_accepted :
  (forall username start_date end_date codes,
     run username start_date end_date codes
     = [Draw (st.error "Please enter a valid Twitter username.")]
     <-> username = "")
  /\ (forall username start_date end_date codes,
        username <> "" -> start_date <= end_date ->
        exists rest,
          run username start_date end_date codes
          = Draw (st.info "Fetching archived tweets. Please wait...")
            :: Request username :: rest)
  /\ (forall start_date end_date codes,
        start_date <= end_date ->
        In (Request "   ") (run "   " start_date end_date codes)).
Proof.
  split; [|split].
  - intros username start_date end_date codes. split.
    + destruct username as [|c username]; [reflexivity|].
      unfold query. simpl. destruct (start_date >? end_date); discriminate.
    + intros ->. reflexivity.
  - intros username start_date end_date codes Hne Hle.
    apply query_fetches; [|exact Hle].
    destruct username; [congruence|reflexivity].
  - intros start_date end_date codes Hle.
    destruct (query_fetches "   " start_date end_date codes eq_refl Hle) as [rest ->].
    right. left. reflexivity.
Qed.

(** C3, as amended.  When both checks pass, the archive returns captures
    and the filters leave no row, the query reports a count of zero and
    then the notice that nothing matches, which is not the notice for an
    account without captures; it shows no table and offers no download. *)
Theorem C3_empty_filter_notice (username : string) (start_date end_date : date)
  (codes : list string) (archived_tweets : list RawCapture)
  (parsed_tweets : list ParsedRecord) (df filtered_df : pd.DataFrame) :
  truthy_str username = true ->
  start_date <= end_date ->
  WaybackTweets_get username = Ok archived_tweets ->
  archived_tweets <> [] ->
  TweetsParser_parse archived_tweets username field_options = Ok parsed_tweets ->
  build parse_datetime parsed_tweets = Ok df ->
  filter_pipeline df start_date end_date codes = Ok filtered_df ->
  pd.rows filtered_df = [] ->
  run username start_date end_date codes
  = [Draw (st.info "Fetching archived tweets. Please wait...");
     Request username;
     Draw (st.success "Found 0 tweets in the specified range.");
     Draw (st.warning "No tweets match the specified filters.")]
  /\ existsb shows_table (run username start_date end_date codes) = false
  /\ existsb offers_download (run username start_date end_date codes) = false
  /\ st.warning "No tweets match the specified filters."
     <> st.warning "No archived tweets found for the given username.".
Proof.
  intros Hu Hle Hget Hne Hparse Hbuild Hfilter Hrows.
  assert (Hrun : run username start_date end_date codes
                 = [Draw (st.info "Fetching archived tweets. Please wait...");
                    Request username;
                    Draw (st.success "Found 0 tweets in the specified range.");
                    Draw (st.warning "No tweets match the specified filters.")]).
  { unfold query. rewrite Hu. simpl negb. cbv iota.
    destruct (start_date >? end_date) eqn:Hgt; [lia|].
    unfold fetch_and_display, seq_bind, lift. rewrite Hget.
    destruct archived_tweets as [|capture captures]; [congruence|].
    cbv beta iota. simpl truthy_list. cbv iota.
    rewrite Hparse. cbv beta iota. rewrite Hbuild. cbv beta iota.
    rewrite Hfilter. cbv beta iota.
    unfold display, seq_bind, emit, pd.empty, pd.len. rewrite Hrows.
    reflexivity. }
  rewrite Hrun. repeat split. discriminate.
Qed.

End Queries.

(** The zero-captures notice, for comparison: an archive without captures
    for the handle leads to the other warning. *)
Lemma query_no_captures (RawCapture : Type)
  (TweetsParser_parse : list RawCapture -> string -> list string -> result (list ParsedRecord))
  (parse_datetime : string -> option Z) (username : string)
  (start_date end_date : date) (codes : list string) :
  truthy_str username = true ->
  start_date <= end_date ->
  query RawCapture (fun _ => Ok []) TweetsParser_parse parse_datetime
    username start_date end_date codes
  = [Draw (st.info "Fetching archived tweets. Please wait...");
     Request username;
     Draw (st.warning "No archived tweets found for the given username.")].
Proof.
  intros Hu Hle. unfold query. rewrite Hu. simpl negb. cbv iota.
  destruct (start_date >? end_date) eqn:Hgt; [lia|]. reflexivity.
Qed.

(** ** The export *)

Section Csv.

Lemma append_assoc (s1 s2 s3 : string) : (s1 +:+ s2) +:+ s3 = s1 +:+ (s2 +:+ s3).
Proof. induction s1 as [|c s1 IH]; simpl; congruence. Qed.

Lemma append_empty_r (s : string) : s +:+ "" = s.
Proof. induction s as [|c s IH]; simpl; congruence. Qed.

(** A field written as it is holds nothing the reader reacts to. *)
Lemma count_plain (q : bool) (s rest : string) :
  pd.needs_quotes s = false ->
  count_records q (s +:+ rest) = count_records q rest.
Proof.
  induction s as [|c s IH]; simpl; [reflexivity|].
  intros [Hc Hs]%orb_false_elim. unfold pd.special in Hc.
  apply orb_false_elim in Hc as [Hc Hlf].
  apply orb_false_elim in Hc as [_ Hq].
  rewrite Hq, Hlf. simpl. apply IH. exact Hs.
Qed.

(** Between quotes the reader counts nothing, and the closing quote
    brings it back outside. *)
Lemma count_quoted_tail (s rest : string) :
  count_records true (pd.quoted_tail s +:+ rest) = count_records false rest.
Proof.
  induction s as [|c s IH]; simpl; [reflexivity|].
  destruct (Ascii.eqb c pd.quotechar) eqn:Hq; simpl.
  - exact IH.
  - rewrite Hq, andb_false_r. exact IH.
Qed.

Lemma count_csv_field (f rest : string) :
  count_records false (pd.csv_field f +:+ rest) = count_records false rest.
Proof.
  unfold pd.csv_field. destruct (pd.needs_quotes f) eqn:Hn.
  - simpl. apply count_quoted_tail.
  - apply count_plain. exact Hn.
Qed.

Lemma count_join_fields (fields : list string) (rest : string) :
  count_records false (pd.join_fields fields +:+ rest) = count_records false rest.
Proof.
  induction fields as [|f fields IH]; [reflexivity|].
  destruct fields as [|f' fields].
  - apply count_csv_field.
  - change (pd.join_fields (f :: f' :: fields))
      with (pd.csv_field f +:+ String pd.delimiter (pd.join_fields (f' :: fields))).
    rewrite append_assoc, count_csv_field. simpl. exact IH.
Qed.

Lemma count_writerow (fields : list string) (rest : string) :
  count_records false (pd.writerow fields +:+ rest) = S (count_records false rest).
Proof.
  assert (Hjoin : count_records false
                    ((pd.join_fields fields +:+ String pd.LF EmptyString) +:+ rest)
                  = S (count_records false rest)).
  { rewrite append_assoc, count_join_fields. reflexivity. }
  unfold pd.writerow. destruct fields as [|[|c f] [|f' fields]];
    first [exact Hjoin | reflexivity].
Qed.

Lemma count_rows {A} (fields_of : A -> list string) (l : list A) (rest : string) :
  count_records false (pd.join (map (fun x => pd.writerow (fields_of x)) l) +:+ rest)
  = (length l + count_records false rest)%nat.
Proof.
  induction l as [|x l IH]; simpl; [reflexivity|].
  rewrite append_assoc, count_writerow, IH. reflexivity.
Qed.

Lemma count_save_chunks (ncols : nat) (cs : list (list pd.row)) :
  count_records false (pd.join (map (pd.save_chunk ncols) cs)) = length (concat cs).
Proof.
  induction cs as [|chunk cs IH]; simpl; [reflexivity|].
  unfold pd.save_chunk at 1. rewrite count_rows, IH, length_app. reflexivity.
Qed.

Lemma concat_chunks {A} (n k : nat) (cur l : list A) :
  concat (pd.chunks n k cur l) = rev cur ++ l.
Proof.
  revert k cur. induction l as [|x l IH]; intros k cur; simpl.
  - destruct cur; simpl; [reflexivity|]. rewrite !app_nil_r. reflexivity.
  - destruct k; simpl; rewrite IH; simpl; [reflexivity|].
    rewrite <- app_assoc. reflexivity.
Qed.

(** The text is the line of column names followed by one record per row. *)
Lemma to_csv_records (df : pd.DataFrame) :
  exists body,
    pd.to_csv df = pd.writerow (pd.columns df) +:+ body
    /\ count_records false body = pd.len df.
Proof.
  unfold pd.to_csv. eexists. split; [reflexivity|].
  rewrite count_save_chunks, concat_chunks. reflexivity.
Qed.

End Csv.

(** ** The table builder *)

Section Build.

Implicit Types (f g : field) (record : ParsedRecord) (parsed : list ParsedRecord).
Implicit Types (c k : string) (cols seen : list string).

Lemma lookup_map {A B} (h : A -> B) (l : list A) (i : nat) :
  map h l !! i = h <$> (l !! i).
Proof. apply (list_lookup_fmap h l i). Qed.

Lemma zip_with_map_r {A B C} (h : A -> B -> C) (k : A -> B) (l : list A) :
  zip_with h l (map k l) = map (fun x => h x (k x)) l.
Proof. induction l as [|x l IH]; simpl; congruence. Qed.

Lemma get_loc_In c cols : In c cols -> exists j, pd.get_loc c cols = Some j.
Proof.
  induction cols as [|c' cols IH]; simpl; [tauto|].
  intros Hin. destruct (String.eqb_spec c c') as [->|Hne]; [eauto|].
  destruct Hin as [Heq|Hin]; [congruence|].
  destruct (IH Hin) as [j ->]. simpl. eauto.
Qed.

Lemma get_loc_lookup c cols j : pd.get_loc c cols = Some j -> cols !! j = Some c.
Proof.
  revert j. induction cols as [|c' cols IH]; simpl; intros j H; [discriminate|].
  destruct (String.eqb_spec c c') as [->|Hne].
  - injection H as <-. reflexivity.
  - destruct (pd.get_loc c cols) as [j'|]; simpl in H; [|discriminate].
    injection H as <-. simpl. apply IH. reflexivity.
Qed.

Lemma get_loc_not_In c cols : ~ In c cols -> pd.get_loc c cols = None.
Proof.
  intros Hnot. destruct (pd.get_loc c cols) as [j|] eqn:Hj; [|reflexivity].
  exfalso. apply Hnot. apply get_loc_lookup in Hj.
  apply list_elem_of_In. eapply list_elem_of_lookup_2. exact Hj.
Qed.

Lemma existsb_eqb_In k seen : existsb (String.eqb k) seen = true <-> In k seen.
Proof.
  rewrite existsb_exists. split.
  - intros (k' & Hin & Heq). apply String.eqb_eq in Heq as ->. exact Hin.
  - intros Hin. exists k. split; [exact Hin|apply String.eqb_refl].
Qed.

Lemma unique_In k seen (l : list string) :
  In k (pd.unique seen l) <-> In k l /\ ~ In k seen.
Proof.
  revert seen. induction l as [|x l IH]; intros seen; simpl; [tauto|].
  destruct (existsb (String.eqb x) seen) eqn:Hx.
  - apply existsb_eqb_In in Hx. rewrite IH. split.
    + tauto.
    + intros [[->|Hin] Hnot]; tauto.
  - assert (Hx' : ~ In x seen).
    { intros Hin. apply existsb_eqb_In in Hin. congruence. }
    simpl. rewrite IH. simpl. split.
    + intros [->|(Hin & Hnot)]; [tauto|]. split; [tauto|]. intros H. apply Hnot. tauto.
    + intros [[->|Hin] Hnot]; [tauto|].
      destruct (string_dec x k) as [->|Hne]; [tauto|]. right. split; [exact Hin|].
      intros [Heq|H]; congruence.
Qed.

Lemma field_name_inj f g : field_name f = field_name g -> f = g.
Proof. destruct f, g; intros H; try reflexivity; discriminate H. Qed.

(** Renaming keeps the four fields apart. *)
Lemma column_of_eqb f g :
  String.eqb (column_of f) (column_of g) = String.eqb (field_name f) (field_name g).
Proof. destruct f, g; reflexivity. Qed.

Lemma get_loc_renamed f cols :
  Forall (fun c => exists g, c = field_name g) cols ->
  pd.get_loc (column_of f) (map (pd.lookup_name renamed_columns) cols)
  = pd.get_loc (field_name f) cols.
Proof.
  induction 1 as [|c cols [g ->] _ IH]; [reflexivity|].
  cbn [map pd.get_loc].
  change (pd.lookup_name renamed_columns (field_name g)) with (column_of g).
  rewrite column_of_eqb, IH. reflexivity.
Qed.

(** The keys of the records, in the order the table constructor meets
    them. *)
Lemma keys_fields parsed :
  Forall (fun c => exists g, c = field_name g)
    (concat (map (map fst) (map items parsed))).
Proof.
  apply List.Forall_forall. intros c Hc.
  apply in_concat in Hc as (ks & Hks & Hc).
  rewrite map_map in Hks. apply in_map_iff in Hks as (record & <- & _).
  unfold items in Hc. rewrite map_map in Hc. simpl in Hc.
  apply in_map_iff in Hc as (kv & <- & _). eauto.
Qed.

Lemma has_field_In f record :
  has_field f record = true <-> In (field_name f) (map fst (items record)).
Proof.
  unfold has_field, items. rewrite map_map. simpl. rewrite existsb_exists, in_map_iff.
  split.
  - intros (kv & Hin & Heq). apply String.eqb_eq in Heq. eauto.
  - intros (kv & Heq & Hin). exists kv. split; [exact Hin|].
    rewrite Heq. apply String.eqb_refl.
Qed.

Lemma In_keys f parsed :
  In (field_name f) (concat (map (map fst) (map items parsed)))
  <-> existsb (has_field f) parsed = true.
Proof.
  rewrite in_concat, existsb_exists. split.
  - intros (ks & Hks & Hin). rewrite map_map in Hks.
    apply in_map_iff in Hks as (record & <- & Hrec).
    exists record. split; [exact Hrec|]. apply has_field_In. exact Hin.
  - intros (record & Hrec & Hf). exists (map fst (items record)). split.
    + rewrite map_map. apply in_map_iff. eauto.
    + apply has_field_In. exact Hf.
Qed.

Lemma Forall_unique (P : string -> Prop) seen (l : list string) :
  Forall P l -> Forall P (pd.unique seen l).
Proof.
  intros H. revert seen. induction H as [|x l Hx _ IH]; intros seen; simpl; [constructor|].
  destruct (existsb (String.eqb x) seen); [apply IH|]. constructor; [exact Hx|apply IH].
Qed.

(** The frame has the column of a field exactly when some record carries
    the field. *)
Lemma get_loc_column f parsed :
  pd.get_loc (column_of f)
    (pd.columns (pd.rename renamed_columns (pd.DataFrame_init (map items parsed))))
  = pd.get_loc (field_name f) (pd.columns (pd.DataFrame_init (map items parsed))).
Proof.
  simpl. apply get_loc_renamed. apply Forall_unique, keys_fields.
Qed.

Lemma column_absent f parsed :
  existsb (has_field f) parsed = false ->
  pd.get_loc (column_of f)
    (pd.columns (pd.rename renamed_columns (pd.DataFrame_init (map items parsed)))) = None.
Proof.
  intros Hno. rewrite get_loc_column. apply get_loc_not_In. simpl.
  rewrite unique_In, In_keys. intros [H _]. congruence.
Qed.

Lemma column_present f parsed :
  existsb (has_field f) parsed = true ->
  exists j,
    pd.get_loc (column_of f)
      (pd.columns (pd.rename renamed_columns (pd.DataFrame_init (map items parsed)))) = Some j.
Proof.
  intros Hyes. rewrite get_loc_column. apply get_loc_In. simpl.
  rewrite unique_In, In_keys. split; [exact Hyes|]. intros [].
Qed.

Variable parse_datetime : string -> option Z.

(** Step 6 on a frame that has the timestamp column at position [j]. *)
Lemma convert_timestamp (df : pd.DataFrame) (j : nat) :
  pd.get_loc "timestamp" (pd.columns df) = Some j ->
  (ts <- pd.getitem df "timestamp" ;;
   pd.setitem df "timestamp" (pd.to_datetime parse_datetime ts))
  = Ok (with_rows df
          (map (fun r => pd.Row (pd.label r)
                           (<[j := pd.coerce parse_datetime (pd.at_loc j r)]> (pd.cells r)))
             (pd.rows df))).
Proof.
  intros Hj. unfold pd.getitem. rewrite Hj. unfold bind, pd.setitem, pd.to_datetime.
  rewrite !length_map, Nat.eqb_refl, Hj. cbn [negb].
  rewrite map_map, zip_with_map_r. reflexivity.
Qed.

Lemma build_KeyError parsed :
  existsb (has_field archived_timestamp) parsed = false ->
  build parse_datetime parsed = Raise (KeyError "timestamp").
Proof.
  intros Hno. pose proof (column_absent archived_timestamp parsed Hno) as Hj.
  change (column_of archived_timestamp) with "timestamp" in Hj.
  unfold build, pd.getitem. rewrite Hj. reflexivity.
Qed.

Lemma build_Ok parsed :
  existsb (has_field archived_timestamp) parsed = true ->
  exists j,
    pd.get_loc "timestamp"
      (pd.columns (pd.rename renamed_columns (pd.DataFrame_init (map items parsed)))) = Some j
    /\ build parse_datetime parsed
       = Ok (with_rows (pd.rename renamed_columns (pd.DataFrame_init (map items parsed)))
               (map (fun r => pd.Row (pd.label r)
                                (<[j := pd.coerce parse_datetime (pd.at_loc j r)]> (pd.cells r)))
                  (pd.rows (pd.DataFrame_init (map items parsed))))).
Proof.
  intros Hyes. destruct (column_present archived_timestamp parsed Hyes) as [j Hj].
  change (column_of archived_timestamp) with "timestamp" in Hj.
  exists j. split; [exact Hj|]. unfold build.
  exact (convert_timestamp _ j Hj).
Qed.

End Build.

Section BuildCells.

Implicit Types (f g : field) (record : ParsedRecord) (parsed : list ParsedRecord).

Lemma Ok_inj {A} (a b : A) : Ok a = Ok b -> a = b.
Proof. congruence. Qed.

Lemma dict_get_absent f record :
  has_field f record = false -> pd.dict_get (items record) (field_name f) = None.
Proof.
  induction record as [|[g v] record IH]; [reflexivity|].
  unfold has_field. cbn [existsb items map pd.dict_get fst snd].
  intros [Hg Hrest]%orb_false_elim. rewrite Hg. apply IH. exact Hrest.
Qed.

(** Row [i] of the frame of the records is made from record [i]. *)
Lemma DataFrame_init_row parsed (i : nat) record :
  parsed !! i = Some record ->
  pd.rows (pd.DataFrame_init (map items parsed)) !! i
  = Some (pd.Row i (map (fun c => match pd.dict_get (items record) c with
                                  | Some v => v
                                  | None => pd.NaN
                                  end)
                      (pd.columns (pd.DataFrame_init (map items parsed))))).
Proof.
  intros Hi. simpl. rewrite list_lookup_imap, lookup_map, Hi. reflexivity.
Qed.

Variable parse_datetime : string -> option Z.

(** The columns of a built table are the fields some record carries. *)
Lemma built_has_column parsed (df : pd.DataFrame) f :
  build parse_datetime parsed = Ok df ->
  has_column df (column_of f) = existsb (has_field f) parsed.
Proof.
  intros Hbuild.
  destruct (existsb (has_field archived_timestamp) parsed) eqn:Hts.
  2:{ rewrite (build_KeyError parse_datetime parsed Hts) in Hbuild. discriminate. }
  destruct (build_Ok parse_datetime parsed Hts) as (j & Hj & Hok).
  rewrite Hok in Hbuild. apply Ok_inj in Hbuild. subst df.
  unfold has_column. change (pd.columns (with_rows ?d ?rs)) with (pd.columns d).
  destruct (existsb (has_field f) parsed) eqn:Hf.
  - destruct (column_present f parsed Hf) as [j' ->]. reflexivity.
  - rewrite (column_absent f parsed Hf). reflexivity.
Qed.

(** A field that a record lacks leaves a null in its row: NaN, which the
    conversion of the timestamp column turns into NaT. *)
Lemma build_missing_cell parsed (df : pd.DataFrame) (i : nat) record f :
  build parse_datetime parsed = Ok df ->
  parsed !! i = Some record ->
  has_field f record = false ->
  has_column df (column_of f) = true ->
  exists r,
    pd.rows df !! i = Some r
    /\ pd.label r = i
    /\ cell_of df (column_of f) r
       = match f with archived_timestamp => pd.NaT | _ => pd.NaN end.
Proof.
  intros Hbuild Hi Hf Hcol.
  destruct (existsb (has_field archived_timestamp) parsed) eqn:Hts.
  2:{ rewrite (build_KeyError parse_datetime parsed Hts) in Hbuild. discriminate. }
  destruct (build_Ok parse_datetime parsed Hts) as (j & Hj & Hok).
  rewrite Hok in Hbuild. apply Ok_inj in Hbuild. subst df.
  unfold has_column, cell_of in *.
  change (pd.columns (with_rows ?d ?rs)) with (pd.columns d) in *.
  change (pd.rows (with_rows ?d ?rs)) with rs.
  destruct (pd.get_loc (column_of f) _) as [j'|] eqn:Hj'; [clear Hcol|discriminate].
  pose proof (DataFrame_init_row parsed i record Hi) as Hrow.
  pose proof Hj' as Hloc. rewrite get_loc_column in Hloc.
  apply get_loc_lookup in Hloc.
  set (df0 := pd.DataFrame_init (map items parsed)) in *.
  set (cells0 := map _ (pd.columns df0)) in Hrow.
  assert (Hcell : cells0 !! j' = Some pd.NaN).
  { unfold cells0. rewrite lookup_map, Hloc. simpl.
    rewrite (dict_get_absent f record Hf). reflexivity. }
  eexists. split; [|split].
  - rewrite lookup_map, Hrow. reflexivity.
  - reflexivity.
  - unfold pd.at_loc. cbn [pd.cells pd.label].
    apply nth_lookup_Some.
    assert (Hdec : f = archived_timestamp \/ f <> archived_timestamp)
      by (destruct f; [left; reflexivity|right; discriminate..]).
    destruct Hdec as [->|Hother].
    + change (column_of archived_timestamp) with "timestamp" in Hj'.
      rewrite Hj in Hj'. injection Hj' as <-.
      rewrite list_lookup_insert_eq by (eapply lookup_lt_Some; exact Hcell).
      rewrite (nth_lookup_Some _ _ _ _ Hcell). reflexivity.
    + assert (Hne : j <> j').
      { intros <-. apply get_loc_lookup in Hj, Hj'.
        rewrite Hj in Hj'. injection Hj' as Hname.
        destruct f; [congruence|discriminate Hname..]. }
      rewrite list_lookup_insert_ne by exact Hne.
      rewrite Hcell. destruct f; congruence.
Qed.

End BuildCells.

(** ** What the builder hands to the filters *)

Section BuiltTables.

Implicit Types (record : ParsedRecord) (parsed : list ParsedRecord).

Lemma complete_keys record :
  complete record = true -> map fst (items record) = field_options.
Proof.
  unfold complete, items. rewrite map_map. cbn [fst].
  change (map (fun kv => field_name (fst kv)) record)
    with (map (fun kv : field * string => field_name (fst kv)) record).
  rewrite <- (map_map fst field_name).
  destruct (map fst record) as [|a [|b [|c [|d [|e l]]]]]; try discriminate;
    destruct a; try discriminate; destruct b; try discriminate;
    destruct c; try discriminate; destruct d; try discriminate.
  reflexivity.
Qed.

Lemma unique_all_seen (seen l : list string) :
  Forall (fun k => In k seen) l -> pd.unique seen l = [].
Proof.
  induction 1 as [|k l Hk _ IH]; simpl; [reflexivity|].
  apply existsb_eqb_In in Hk. rewrite Hk. exact IH.
Qed.

Variable parse_datetime : string -> option Z.

Lemma is_datetime_coerce (c : pd.cell) : is_datetime (pd.coerce parse_datetime c) = true.
Proof.
  destruct c as [s| |t|]; simpl; try reflexivity.
  destruct (parse_datetime s); reflexivity.
Qed.

(** The timestamp column of a table the builder returns holds what the
    conversion gives: timestamps and nulls. *)
Lemma build_datetime_column parsed (df : pd.DataFrame) :
  build parse_datetime parsed = Ok df -> datetime_column df = true.
Proof.
  intros Hbuild.
  destruct (existsb (has_field archived_timestamp) parsed) eqn:Hts.
  2:{ rewrite (build_KeyError parse_datetime parsed Hts) in Hbuild. discriminate. }
  destruct (build_Ok parse_datetime parsed Hts) as (j & Hj & Hok).
  rewrite Hok in Hbuild. apply Ok_inj in Hbuild. subst df.
  unfold datetime_column, has_column, cell_of.
  change (pd.columns (with_rows ?d ?rs)) with (pd.columns d).
  change (pd.rows (with_rows ?d ?rs)) with rs.
  rewrite Hj. simpl andb. apply forallb_forall. intros r Hr.
  apply in_map_iff in Hr as (r0 & <- & Hr0).
  apply list_elem_of_In, elem_of_lookup_imap_1 in Hr0 as (i & d & -> & _).
  unfold pd.at_loc. cbn [pd.cells pd.label].
  apply get_loc_lookup, lookup_lt_Some in Hj.
  change (pd.columns (pd.rename ?m ?d)) with (map (pd.lookup_name m) (pd.columns d)) in Hj.
  rewrite length_map in Hj.
  erewrite nth_lookup_Some; [apply is_datetime_coerce|].
  apply list_lookup_insert_eq. rewrite length_map. exact Hj.
Qed.

(** Records that carry the four fields in the order asked for give the
    table of the specification: its four columns in their order, timestamps
    converted. *)
Lemma build_complete parsed :
  parsed <> [] ->
  forallb complete parsed = true ->
  exists df,
    build parse_datetime parsed = Ok df
    /\ pd.columns df = output_columns
    /\ pd.len df = length parsed
    /\ RecordTable df = true.
Proof.
  intros Hne Hall.
  assert (Hcols : pd.columns (pd.rename renamed_columns (pd.DataFrame_init (map items parsed)))
                  = output_columns).
  { destruct parsed as [|record rest]; [congruence|].
    apply andb_prop in Hall as [Hrec Hrest].
    cbn [pd.rename pd.DataFrame_init pd.columns map concat].
    rewrite (complete_keys record Hrec).
    assert (Htail : Forall (fun k => In k (rev field_options))
                      (concat (map (map fst) (map items rest)))).
    { apply List.Forall_forall. intros k Hk.
      apply in_concat in Hk as (ks & Hks & Hk).
      rewrite map_map in Hks. apply in_map_iff in Hks as (r & <- & Hr).
      pose proof (proj1 (forallb_forall _ _) Hrest r Hr) as Hcomplete.
      rewrite (complete_keys r Hcomplete) in Hk. apply in_rev in Hk. exact Hk. }
    change (pd.unique [] (field_options ++ ?tail))
      with (field_options ++ pd.unique (rev field_options) tail).
    rewrite (unique_all_seen _ _ Htail). reflexivity. }
  assert (Hts : existsb (has_field archived_timestamp) parsed = true).
  { destruct (existsb (has_field archived_timestamp) parsed) eqn:Hts; [reflexivity|].
    pose proof (column_absent archived_timestamp parsed Hts) as Habs.
    rewrite Hcols in Habs. discriminate Habs. }
  destruct (build_Ok parse_datetime parsed Hts) as (j & Hj & Hok).
  eexists. split; [exact Hok|]. split; [exact Hcols|]. split.
  - unfold pd.len. change (pd.rows (with_rows ?d ?rs)) with rs.
    simpl. rewrite length_map, length_imap, length_map. reflexivity.
  - unfold RecordTable. rewrite (build_datetime_column parsed _ Hok).
    unfold has_column. change (pd.columns (with_rows ?d ?rs)) with (pd.columns d).
    rewrite Hcols. reflexivity.
Qed.

End BuiltTables.

(** ** Claims about the builder and the whole query, on concrete inputs *)

(** C2, as amended.  The builder checks no schema.  It fails, with the
    [KeyError] of the missing timestamp column, exactly when no record
    carries the field archived_timestamp; otherwise it returns a table with
    one row per record, whose columns are those of the fields that some
    record carries.  A field that a record lacks while another record
    carries it is a null in the row of that record: NaN, or NaT under the
    timestamp column.  A field that no record carries has no column, and
    nothing is stored for it. *)
Theorem C2_build_without_schema_check (parse_datetime : string -> option Z)
  (parsed : list ParsedRecord) :
  (existsb (has_field archived_timestamp) parsed = false ->
   build parse_datetime parsed = Raise (KeyError "timestamp"))
  /\ (existsb (has_field archived_timestamp) parsed = true ->
      exists df,
        build parse_datetime parsed = Ok df
        /\ pd.len df = length parsed
        /\ (forall f, has_column df (column_of f) = existsb (has_field f) parsed)
        /\ forall (i : nat) record f,
             parsed !! i = Some record ->
             has_field f record = false ->
             existsb (has_field f) parsed = true ->
             exists r,
               pd.rows df !! i = Some r
               /\ pd.label r = i
               /\ cell_of df (column_of f) r
                  = match f with archived_timestamp => pd.NaT | _ => pd.NaN end).
Proof.
  split.
  - apply build_KeyError.
  - intros Hts. destruct (build_Ok parse_datetime parsed Hts) as (j & Hj & Hok).
    eexists. split; [exact Hok|]. split; [|split].
    + unfold pd.len. change (pd.rows (with_rows ?d ?rs)) with rs.
      simpl. rewrite length_map, length_imap, length_map. reflexivity.
    + intros f. exact (built_has_column parse_datetime parsed _ f Hok).
    + intros i record f Hi Hf Hsome.
      apply (build_missing_cell parse_datetime parsed _ i record f Hok Hi Hf).
      rewrite (built_has_column parse_datetime parsed _ f Hok). exact Hsome.
Qed.

Lemma C2_build_without_schema_check_witness :
  (build Sample.parse_datetime [[(original_tweet_url, "https://twitter.com/jack/status/20")]]
   = Raise (KeyError "timestamp"))
  /\ exists df,
       build Sample.parse_datetime Scenario.ragged = Ok df
       /\ pd.len df = length Scenario.ragged
       /\ (forall f, has_column df (column_of f)
                     = existsb (has_field f) Scenario.ragged)
       /\ forall (i : nat) record f,
            Scenario.ragged !! i = Some record ->
            has_field f record = false ->
            existsb (has_field f) Scenario.ragged = true ->
            exists r,
              pd.rows df !! i = Some r
              /\ pd.label r = i
              /\ cell_of df (column_of f) r
                 = match f with archived_timestamp => pd.NaT | _ => pd.NaN end.
Proof.
  split.
  - apply (C2_build_without_schema_check Sample.parse_datetime
             [[(original_tweet_url, "https://twitter.com/jack/status/20")]]).
    reflexivity.
  - apply (C2_build_without_schema_check Sample.parse_datetime Scenario.ragged).
    reflexivity.
Defined.

(** C2 as the specification has it, that a record lacking a required field
    makes the builder fail, does not hold: of the two records of
    [Scenario.ragged] the second has no status code, and the builder returns
    a table. *)
Lemma C2_counterexample :
  ~ (forall parsed : list ParsedRecord,
       (exists record f, In record parsed /\ has_field f record = false) ->
       exists e, build Sample.parse_datetime parsed = Raise e).
Proof.
  intros Hclaim. destruct (Hclaim Scenario.ragged) as [e He].
  - eexists. exists archived_statuscode. split; [right; left; reflexivity|reflexivity].
  - vm_compute in He. discriminate He.
Qed.

(** The run on records of which one lacks its status code goes through to
    the table: the builder returns, the table is shown, and the row of that
    record has NaN for its status code. *)
Example ragged_run_shows_table :
  exists df r,
    build Sample.parse_datetime Scenario.ragged = Ok df
    /\ pd.rows df !! 1%nat = Some r
    /\ cell_of df "statuscode" r = pd.NaN
    /\ In (Draw (st.dataframe df))
         (Sample.run Scenario.ragged "jack" Scenario.May_1 Scenario.May_31 []).
Proof.
  eexists. eexists. split; [vm_compute; reflexivity|].
  split; [reflexivity|]. split; [reflexivity|].
  vm_compute. do 4 right. left. reflexivity.
Qed.

Lemma C3_empty_filter_notice_witness :
  Sample.run Scenario.April "jack" Scenario.May_1 Scenario.May_31 []
  = [Draw (st.info "Fetching archived tweets. Please wait...");
     Request "jack";
     Draw (st.success "Found 0 tweets in the specified range.");
     Draw (st.warning "No tweets match the specified filters.")]
  /\ existsb shows_table
       (Sample.run Scenario.April "jack" Scenario.May_1 Scenario.May_31 []) = false
  /\ existsb offers_download
       (Sample.run Scenario.April "jack" Scenario.May_1 Scenario.May_31 []) = false
  /\ st.warning "No tweets match the specified filters."
     <> st.warning "No archived tweets found for the given username.".
Proof.
  eapply (C3_empty_filter_notice Sample.RawCapture (Sample.archive Scenario.April)
            Sample.parse Sample.parse_datetime "jack" Scenario.May_1 Scenario.May_31 []).
  - reflexivity.
  - vm_compute. discriminate.
  - reflexivity.
  - discriminate.
  - reflexivity.
  - vm_compute. reflexivity.
  - vm_compute. reflexivity.
  - reflexivity.
Defined.

(** C3 as the specification has it, with the table displayed as empty, does
    not hold: for five captures of April and a query about May both checks
    pass, the archive returns the captures, the filters leave no row, and the
    run shows no table at all. *)
Lemma C3_counterexample :
  let trace := Sample.run Scenario.April "jack" Scenario.May_1 Scenario.May_31 [] in
  truthy_str "jack" = true
  /\ Scenario.May_1 <= Scenario.May_31
  /\ Sample.archive Scenario.April "jack" = Ok Scenario.April
  /\ length Scenario.April = 5%nat
  /\ (exists df filtered_df,
        build Sample.parse_datetime Scenario.April = Ok df
        /\ pd.len df = 5%nat
        /\ filter_pipeline df Scenario.May_1 Scenario.May_31 [] = Ok filtered_df
        /\ pd.rows filtered_df = [])
  /\ ~ (exists df, In (Draw (st.dataframe df)) trace).
Proof.
  cbv zeta. split; [reflexivity|]. split; [vm_compute; discriminate|].
  split; [reflexivity|]. split; [reflexivity|]. split.
  - eexists. eexists. split; [vm_compute; reflexivity|].
    split; [reflexivity|]. split; [vm_compute; reflexivity|reflexivity].
  - intros [df Hin]. vm_compute in Hin.
    destruct Hin as [H|[H|[H|[H|[]]]]]; discriminate H.
Qed.

Lemma C5_end_before_start_witness :
  Sample.run Scenario.April "jack" Scenario.June_1 Scenario.May_1 ["200"]
  = [Draw (st.error "The end date must be after the start date.")]
  /\ Sample.run Scenario.April "" Scenario.June_1 Scenario.May_1 ["200"]
     = [Draw (st.error "Please enter a valid Twitter username.")].
Proof.
  split.
  - apply (C5_end_before_start Sample.RawCapture (Sample.archive Scenario.April)
             Sample.parse Sample.parse_datetime "jack" Scenario.June_1 Scenario.May_1 ["200"]).
    reflexivity.
  - apply (C5_end_before_start Sample.RawCapture (Sample.archive Scenario.April)
             Sample.parse Sample.parse_datetime "" Scenario.June_1 Scenario.May_1 ["200"]).
    reflexivity.
Defined.

(** C5 as the specification has it, that every query with the start date
    after the end date fails with the message about the dates, does not
    hold: with the empty handle the message is the one about the username,
    whatever the dates. *)
Lemma C5_counterexample :
  ~ (forall (username : string) (start_date end_date : date) (codes : list string),
       start_date > end_date ->
       Sample.run Scenario.April username start_date end_date codes
       = [Draw (st.error "The end date must be after the start date.")]).
Proof.
  intros Hclaim.
  specialize (Hclaim "" Scenario.June_1 Scenario.May_1 [] eq_refl).
  vm_compute in Hclaim. discriminate Hclaim.
Qed.

Lemma C10_blank_handle_accepted_witness :
  In (Request "   ")
    (Sample.run Scenario.April "   " Scenario.May_1 Scenario.May_31 []).
Proof.
  apply (C10_blank_handle_accepted Sample.RawCapture (Sample.archive Scenario.April)
           Sample.parse Sample.parse_datetime).
  vm_compute. discriminate.
Defined.


(** ** The filters, further *)

Section FilterLaws.

Implicit Types (df : pd.DataFrame) (r : pd.row) (codes : list string).

Lemma filter_sublist_impl {A} (f g : A -> bool) (l : list A) :
  (forall x, In x l -> f x = true -> g x = true) ->
  List.filter f l `sublist_of` List.filter g l.
Proof.
  induction l as [|x l IH]; intros Himp; simpl; [constructor|].
  assert (IH' : List.filter f l `sublist_of` List.filter g l).
  { apply IH. intros y Hy. apply Himp. right. exact Hy. }
  destruct (f x) eqn:Hf.
  - rewrite (Himp x (or_introl eq_refl) Hf). apply sublist_skip. exact IH'.
  - destruct (g x); [apply sublist_cons|]; exact IH'.
Qed.

Lemma passes_date_Time df start_date end_date r :
  passes_date df start_date end_date r = true ->
  exists t, cell_of df "timestamp" r = pd.Time t
            /\ between_midnights start_date end_date (pd.Time t) = true.
Proof.
  unfold passes_date. destruct (cell_of df "timestamp" r) as [s| |t|]; try discriminate.
  intros H. exists t. split; [reflexivity|exact H].
Qed.

Lemma passes_In df start_date end_date codes r :
  passes df start_date end_date codes r = true
  <-> passes_date df start_date end_date r = true
      /\ (codes = [] \/ passes_status df codes r = true).
Proof.
  unfold passes. rewrite andb_true_iff, orb_true_iff.
  destruct codes as [|c codes]; simpl.
  - split; intros [H _]; (split; [exact H|left; reflexivity]).
  - split; intros [H [H'|H']]; try discriminate; (split; [exact H|right; exact H']).
Qed.

End FilterLaws.

(** X: what the filters return is inside the range and inside the
    selection.  Every row of the result has a timestamp that is not null and
    whose calendar date lies between [start_date] and [end_date]; when status
    codes were selected its status code is one of them. *)
Theorem filtered_rows_in_range (df df' : pd.DataFrame) (start_date end_date : date)
  (codes : list string) (r : pd.row) :
  filter_pipeline df start_date end_date codes = Ok df' ->
  In r (pd.rows df') ->
  In r (pd.rows df)
  /\ (exists t, cell_of df "timestamp" r = pd.Time t
                /\ start_date <= pd.Timestamp_date t <= end_date)
  /\ (codes <> [] ->
      exists code, cell_of df "statuscode" r = pd.Str code /\ In code codes).
Proof.
  intros Hf Hr. apply filter_pipeline_Ok in Hf as (_ & _ & _ & ->).
  apply filter_In in Hr as [Hin Hpass]. apply passes_In in Hpass as [Hdate Hstatus].
  split; [exact Hin|]. split.
  - apply passes_date_Time in Hdate as (t & Ht & Hbetween). exists t. split; [exact Ht|].
    apply between_midnights_date_in_range in Hbetween.
    unfold date_in_range in Hbetween. apply andb_prop in Hbetween as [H1 H2]. lia.
  - intros Hne. destruct Hstatus as [->|Hstatus]; [congruence|].
    apply isin_cell_true. exact Hstatus.
Qed.

Lemma filtered_rows_in_range_witness :
  In (Scenario.capture_row 2 (Scenario.noon (Scenario.May_1 + 3)) "200")
    (pd.rows Scenario.A)
  /\ (exists t,
        cell_of Scenario.A "timestamp"
          (Scenario.capture_row 2 (Scenario.noon (Scenario.May_1 + 3)) "200") = pd.Time t
        /\ Scenario.May_1 <= pd.Timestamp_date t <= Scenario.May_31)
  /\ (["200"] <> [] ->
      exists code,
        cell_of Scenario.A "statuscode"
          (Scenario.capture_row 2 (Scenario.noon (Scenario.May_1 + 3)) "200") = pd.Str code
        /\ In code ["200"]).
Proof.
  apply (filtered_rows_in_range Scenario.A
           (Scenario.table
              [Scenario.capture_row 0 (Scenario.noon (Scenario.May_1 + 1)) "200";
               Scenario.capture_row 2 (Scenario.noon (Scenario.May_1 + 3)) "200"])
           Scenario.May_1 Scenario.May_31 ["200"]
           (Scenario.capture_row 2 (Scenario.noon (Scenario.May_1 + 3)) "200")).
  - reflexivity.
  - right. left. reflexivity.
Defined.

(** X: the exact reach of the date filter.  A row is kept exactly when its
    timestamp is not null, falls on [start_date] or later, and falls before
    [end_date] or is the very midnight that opens [end_date]. *)
Theorem date_filter_exact (df df' : pd.DataFrame) (start_date end_date : date) (r : pd.row) :
  filter_by_date_range df start_date end_date = Ok df' ->
  (In r (pd.rows df')
   <-> In r (pd.rows df)
       /\ exists t, cell_of df "timestamp" r = pd.Time t
                    /\ start_date <= pd.Timestamp_date t
                    /\ (pd.Timestamp_date t < end_date \/ t = pd.Timestamp end_date)).
Proof.
  intros Hf. apply filter_by_date_range_Ok in Hf as (_ & _ & ->).
  change (pd.rows (with_rows df ?rs)) with rs. rewrite filter_In. split.
  - intros [Hin Hpass]. split; [exact Hin|].
    apply passes_date_Time in Hpass as (t & Ht & Hb). exists t. split; [exact Ht|].
    apply between_midnights_Time. exact Hb.
  - intros [Hin (t & Ht & Hb)]. split; [exact Hin|].
    unfold passes_date. rewrite Ht. apply between_midnights_Time. exact Hb.
Qed.

Lemma date_filter_exact_witness :
  In (Scenario.capture_row 2 (pd.Timestamp Scenario.May_31) "200")
    [Scenario.capture_row 1 (pd.Timestamp Scenario.May_1) "200";
     Scenario.capture_row 2 (pd.Timestamp Scenario.May_31) "200"]
  <-> In (Scenario.capture_row 2 (pd.Timestamp Scenario.May_31) "200")
        (pd.rows Scenario.boundaries)
      /\ exists t,
           cell_of Scenario.boundaries "timestamp"
             (Scenario.capture_row 2 (pd.Timestamp Scenario.May_31) "200") = pd.Time t
           /\ Scenario.May_1 <= pd.Timestamp_date t
           /\ (pd.Timestamp_date t < Scenario.May_31 \/ t = pd.Timestamp Scenario.May_31).
Proof.
  apply (date_filter_exact Scenario.boundaries
           (Scenario.table
              [Scenario.capture_row 1 (pd.Timestamp Scenario.May_1) "200";
               Scenario.capture_row 2 (pd.Timestamp Scenario.May_31) "200"])
           Scenario.May_1 Scenario.May_31
           (Scenario.capture_row 2 (pd.Timestamp Scenario.May_31) "200")).
  reflexivity.
Defined.

(** X: a wider query never loses a row.  When the range is widened at either
    end, and the selection of status codes is enlarged or dropped, every row
    of the narrower result is in the wider one, in the same order. *)
Theorem wider_query_keeps_rows (df narrow wide : pd.DataFrame)
  (start_date end_date start_date' end_date' : date) (codes codes' : list string) :
  filter_pipeline df start_date end_date codes = Ok narrow ->
  filter_pipeline df start_date' end_date' codes' = Ok wide ->
  start_date' <= start_date ->
  end_date <= end_date' ->
  codes' = [] \/ (codes <> [] /\ forall code, In code codes -> In code codes') ->
  pd.rows narrow `sublist_of` pd.rows wide.
Proof.
  intros Hn Hw Hs He Hcodes.
  apply filter_pipeline_Ok in Hn as (_ & _ & _ & ->).
  apply filter_pipeline_Ok in Hw as (_ & _ & _ & ->).
  change (pd.rows (with_rows df ?rs)) with rs.
  apply filter_sublist_impl. intros r _ Hpass.
  apply passes_In in Hpass as [Hdate Hstatus]. apply passes_In. split.
  - apply passes_date_Time in Hdate as (t & Ht & Hb).
    unfold passes_date. rewrite Ht.
    unfold between_midnights, pd.Timestamp in *.
    apply andb_prop in Hb as [H1 H2]. apply andb_true_intro.
    change pd.ns_per_day with 86400000000000 in *. lia.
  - destruct Hcodes as [->|[Hne Hincl]]; [left; reflexivity|right].
    destruct Hstatus as [->|Hstatus]; [congruence|].
    unfold passes_status in *. apply isin_cell_true in Hstatus as (code & Hc & Hin).
    apply isin_cell_true. exists code. auto.
Qed.

Lemma wider_query_keeps_rows_witness :
  [Scenario.capture_row 0 (Scenario.noon (Scenario.May_1 + 1)) "200";
   Scenario.capture_row 2 (Scenario.noon (Scenario.May_1 + 3)) "200"]
  `sublist_of` pd.rows Scenario.A.
Proof.
  apply (wider_query_keeps_rows Scenario.A (Scenario.table _) Scenario.A
           Scenario.May_1 Scenario.May_31 (Scenario.May_1 - 1) Scenario.June_1
           ["200"] []).
  - reflexivity.
  - reflexivity.
  - vm_compute. discriminate.
  - vm_compute. discriminate.
  - left. reflexivity.
Defined.

(** X: a range that ends before it starts holds nothing.  The check on the
    dates sits in the caller; the date filter itself, given a start date
    after the end date, returns the empty table. *)
Theorem date_filter_inverted_range (df df' : pd.DataFrame) (start_date end_date : date) :
  filter_by_date_range df start_date end_date = Ok df' ->
  start_date > end_date ->
  pd.rows df' = [] /\ pd.columns df' = pd.columns df.
Proof.
  intros Hf Hgt. apply filter_by_date_range_Ok in Hf as (_ & _ & ->).
  split; [|reflexivity]. change (pd.rows (with_rows df ?rs)) with rs.
  induction (pd.rows df) as [|r rs IH]; [reflexivity|]. simpl.
  destruct (passes_date df start_date end_date r) eqn:Hp; [|exact IH].
  apply passes_date_Time in Hp as (t & _ & Hb).
  apply between_midnights_Time in Hb. destruct Hb as [H1 [H2|H2]]; [lia|].
  subst t. rewrite Timestamp_date_Timestamp in H1. lia.
Qed.

Lemma date_filter_inverted_range_witness :
  exists df',
    filter_by_date_range Scenario.A Scenario.June_1 Scenario.May_1 = Ok df'
    /\ pd.rows df' = [] /\ pd.columns df' = pd.columns Scenario.A.
Proof.
  eexists. split; [reflexivity|].
  apply (date_filter_inverted_range Scenario.A _ Scenario.June_1 Scenario.May_1).
  - reflexivity.
  - reflexivity.
Defined.

(** ** The builder, further *)

Section BuiltRows.

Implicit Types (f : field) (record : ParsedRecord) (parsed : list ParsedRecord).

Lemma field_value_has_field record f (c : pd.cell) :
  field_value record f = Some c -> has_field f record = true.
Proof.
  unfold field_value, has_field.
  induction record as [|[g v] record IH]; [discriminate|].
  cbn [items map pd.dict_get existsb fst snd].
  destruct (String.eqb (field_name f) (field_name g)); [reflexivity|]. exact IH.
Qed.

Lemma field_value_Str record f (c : pd.cell) :
  field_value record f = Some c -> exists v, c = pd.Str v.
Proof.
  unfold field_value.
  induction record as [|[g v] record IH]; [discriminate|].
  cbn [items map pd.dict_get fst snd].
  destruct (String.eqb (field_name f) (field_name g)); [|exact IH].
  intros [= <-]. eauto.
Qed.

Lemma imap_labels {A} (g : nat -> nat) (h : nat -> A -> list pd.cell) (l : list A) :
  map pd.label (imap (fun i d => pd.Row (g i) (h i d)) l) = map g (seq 0 (length l)).
Proof.
  revert g h. induction l as [|x l IH]; intros g h; [reflexivity|].
  cbn [imap map length seq pd.label]. f_equal.
  rewrite <- seq_shift, map_map.
  exact (IH (fun i => g (S i)) (fun i => h (S i))).
Qed.

Lemma has_field_lookup parsed (i : nat) record f :
  parsed !! i = Some record -> has_field f record = true ->
  existsb (has_field f) parsed = true.
Proof.
  intros Hi Hf. apply existsb_exists. exists record. split; [|exact Hf].
  apply list_elem_of_In. eapply list_elem_of_lookup_2. exact Hi.
Qed.

Variable parse_datetime : string -> option Z.

(** The labels of a built table count its rows from zero. *)
Lemma built_labels parsed (df : pd.DataFrame) :
  build parse_datetime parsed = Ok df ->
  map pd.label (pd.rows df) = seq 0 (length parsed).
Proof.
  intros Hbuild.
  destruct (existsb (has_field archived_timestamp) parsed) eqn:Hts.
  2:{ rewrite (build_KeyError parse_datetime parsed Hts) in Hbuild. discriminate. }
  destruct (build_Ok parse_datetime parsed Hts) as (j & Hj & Hok).
  rewrite Hok in Hbuild. apply Ok_inj in Hbuild. subst df.
  change (pd.rows (with_rows ?d ?rs)) with rs. rewrite map_map. cbn [pd.label].
  change (map (fun r => pd.label r) ?l) with (map pd.label l).
  unfold pd.DataFrame_init. cbn [pd.rows].
  rewrite (imap_labels (fun i => i)), length_map, map_id. reflexivity.
Qed.

Lemma built_row_label parsed (df : pd.DataFrame) (r : pd.row) :
  build parse_datetime parsed = Ok df ->
  In r (pd.rows df) -> pd.rows df !! pd.label r = Some r.
Proof.
  intros Hbuild Hr. apply list_elem_of_In, list_elem_of_lookup_1 in Hr as [i Hi].
  pose proof (built_labels parsed df Hbuild) as Hlabels.
  assert (Hl : map pd.label (pd.rows df) !! i = Some (pd.label r)).
  { rewrite lookup_map, Hi. reflexivity. }
  rewrite Hlabels in Hl. apply lookup_seq in Hl as [Hl _]. simpl in Hl.
  rewrite Hl. exact Hi.
Qed.

(** The cell of row [i] under the column of a field is what record [i]
    holds for the field, NaN when it holds nothing, and the conversion of
    that under the timestamp column. *)
Lemma build_cell parsed (df : pd.DataFrame) (i : nat) record f :
  build parse_datetime parsed = Ok df ->
  parsed !! i = Some record ->
  has_column df (column_of f) = true ->
  exists r,
    pd.rows df !! i = Some r
    /\ cell_of df (column_of f) r
       = match f with
         | archived_timestamp =>
             pd.coerce parse_datetime (default pd.NaN (field_value record f))
         | _ => default pd.NaN (field_value record f)
         end.
Proof.
  intros Hbuild Hi Hcol.
  destruct (existsb (has_field archived_timestamp) parsed) eqn:Hts.
  2:{ rewrite (build_KeyError parse_datetime parsed Hts) in Hbuild. discriminate. }
  destruct (build_Ok parse_datetime parsed Hts) as (j & Hj & Hok).
  rewrite Hok in Hbuild. apply Ok_inj in Hbuild. subst df.
  unfold has_column, cell_of in *.
  change (pd.columns (with_rows ?d ?rs)) with (pd.columns d) in *.
  change (pd.rows (with_rows ?d ?rs)) with rs.
  destruct (pd.get_loc (column_of f) _) as [j'|] eqn:Hj'; [clear Hcol|discriminate].
  pose proof (DataFrame_init_row parsed i record Hi) as Hrow.
  pose proof Hj' as Hloc. rewrite get_loc_column in Hloc.
  apply get_loc_lookup in Hloc.
  set (df0 := pd.DataFrame_init (map items parsed)) in *.
  set (cells0 := map _ (pd.columns df0)) in Hrow.
  assert (Hcell : cells0 !! j' = Some (default pd.NaN (field_value record f))).
  { unfold cells0. rewrite lookup_map, Hloc. unfold field_value. simpl.
    destruct (pd.dict_get (items record) (field_name f)); reflexivity. }
  eexists. split.
  - rewrite lookup_map, Hrow. reflexivity.
  - unfold pd.at_loc. cbn [pd.cells pd.label].
    apply nth_lookup_Some.
    assert (Hdec : f = archived_timestamp \/ f <> archived_timestamp)
      by (destruct f; [left; reflexivity|right; discriminate..]).
    destruct Hdec as [->|Hother].
    + change (column_of archived_timestamp) with "timestamp" in Hj'.
      rewrite Hj in Hj'. injection Hj' as <-.
      rewrite list_lookup_insert_eq by (eapply lookup_lt_Some; exact Hcell).
      rewrite (nth_lookup_Some _ _ _ _ Hcell). reflexivity.
    + assert (Hne : j <> j').
      { intros <-. apply get_loc_lookup in Hj, Hj'.
        rewrite Hj in Hj'. injection Hj' as Hname.
        destruct f; [congruence|discriminate Hname..]. }
      rewrite list_lookup_insert_ne by exact Hne.
      rewrite Hcell. destruct f; congruence.
Qed.

End BuiltRows.

(** X: the builder keeps what the records hold.  When the build succeeds,
    the row of record [i] shows, under the column of a field, the very
    string the record holds for it; under the timestamp column it shows the
    timestamp read from that string, or NaT when the string cannot be
    read. *)
Theorem build_keeps_values (parse_datetime : string -> option Z)
  (parsed : list ParsedRecord) (df : pd.DataFrame) (i : nat)
  (record : ParsedRecord) (f : field) (v : string) :
  build parse_datetime parsed = Ok df ->
  parsed !! i = Some record ->
  field_value record f = Some (pd.Str v) ->
  exists r,
    pd.rows df !! i = Some r
    /\ pd.label r = i
    /\ cell_of df (column_of f) r
       = match f with
         | archived_timestamp =>
             match parse_datetime v with
             | Some t => pd.Time t
             | None => pd.NaT
             end
         | _ => pd.Str v
         end.
Proof.
  intros Hbuild Hi Hv.
  assert (Hcol : has_column df (column_of f) = true).
  { rewrite (built_has_column parse_datetime parsed df f Hbuild).
    eapply has_field_lookup; [exact Hi|]. eapply field_value_has_field. exact Hv. }
  destruct (build_cell parse_datetime parsed df i record f Hbuild Hi Hcol) as (r & Hr & Hcell).
  exists r. split; [exact Hr|]. split.
  - pose proof (built_labels parse_datetime parsed df Hbuild) as Hlabels.
    assert (Hl : map pd.label (pd.rows df) !! i = Some (pd.label r)).
    { rewrite lookup_map, Hr. reflexivity. }
    rewrite Hlabels in Hl. apply lookup_seq in Hl as [Hl _]. exact Hl.
  - rewrite Hcell, Hv. destruct f; reflexivity.
Qed.

Lemma build_keeps_values_witness :
  exists df r,
    build Sample.parse_datetime Scenario.ragged = Ok df
    /\ pd.rows df !! 0%nat = Some r
    /\ pd.label r = 0%nat
    /\ cell_of df "original_url" r = pd.Str "https://twitter.com/jack/status/20".
Proof.
  destruct (build Sample.parse_datetime Scenario.ragged) as [df|e] eqn:Hbuild;
    [|vm_compute in Hbuild; discriminate Hbuild].
  destruct (build_keeps_values Sample.parse_datetime Scenario.ragged df 0
              (Sample.capture "20240502120000" "https://twitter.com/jack/status/20"
                 "https://web.archive.org/web/2024/https://twitter.com/jack/status/20" "200")
              original_tweet_url "https://twitter.com/jack/status/20"
              Hbuild eq_refl eq_refl) as (r & Hr & Hlabel & Hcell).
  exists df, r. auto.
Defined.

(** X: filtering does not renumber.  The labels of a built table count its
    rows from zero; after the filters every row still carries the label it
    had, so that the labels of the result are an increasing selection of
    0, 1, 2, ... and each row of the result is found in the built table at
    its label. *)
Theorem filtered_labels_are_positions (parse_datetime : string -> option Z)
  (parsed : list ParsedRecord) (df df' : pd.DataFrame)
  (start_date end_date : date) (codes : list string) :
  build parse_datetime parsed = Ok df ->
  filter_pipeline df start_date end_date codes = Ok df' ->
  map pd.label (pd.rows df') `sublist_of` seq 0 (length parsed)
  /\ forall r, In r (pd.rows df') -> pd.rows df !! pd.label r = Some r.
Proof.
  intros Hbuild Hf. apply filter_pipeline_Ok in Hf as (_ & _ & _ & ->).
  change (pd.rows (with_rows df ?rs)) with rs. split.
  - rewrite <- (built_labels parse_datetime parsed df Hbuild).
    apply (fmap_sublist pd.label), filter_sublist.
  - intros r Hr. apply filter_In in Hr as [Hr _].
    exact (built_row_label parse_datetime parsed df r Hbuild Hr).
Qed.

Lemma filtered_labels_are_positions_witness :
  exists df df',
    build Sample.parse_datetime Scenario.ragged = Ok df
    /\ filter_pipeline df Scenario.May_1 Scenario.May_31 ["200"] = Ok df'
    /\ map pd.label (pd.rows df') `sublist_of` seq 0 (length Scenario.ragged)
    /\ forall r, In r (pd.rows df') -> pd.rows df !! pd.label r = Some r.
Proof.
  destruct (build Sample.parse_datetime Scenario.ragged) as [df|e] eqn:Hbuild;
    [|vm_compute in Hbuild; discriminate Hbuild].
  destruct (filter_pipeline df Scenario.May_1 Scenario.May_31 ["200"]) as [df'|e] eqn:Hf.
  - exists df, df'. split; [reflexivity|]. split; [exact Hf|].
    exact (filtered_labels_are_positions Sample.parse_datetime Scenario.ragged df df'
             Scenario.May_1 Scenario.May_31 ["200"] Hbuild Hf).
  - exfalso. vm_compute in Hbuild. injection Hbuild as <-.
    vm_compute in Hf. discriminate Hf.
Defined.

(** X: a capture whose timestamp cannot be read never comes through.  When
    record [i] has no timestamp, or a timestamp string that does not parse,
    no row of the filtered table carries the label [i], whatever the dates
    and the selection. *)
Theorem unreadable_timestamp_excluded (parse_datetime : string -> option Z)
  (parsed : list ParsedRecord) (df df' : pd.DataFrame)
  (start_date end_date : date) (codes : list string)
  (i : nat) (record : ParsedRecord) :
  build parse_datetime parsed = Ok df ->
  filter_pipeline df start_date end_date codes = Ok df' ->
  parsed !! i = Some record ->
  (field_value record archived_timestamp = None
   \/ exists v, field_value record archived_timestamp = Some (pd.Str v)
                /\ parse_datetime v = None) ->
  forall r, In r (pd.rows df') -> pd.label r <> i.
Proof.
  intros Hbuild Hf Hi Hbad r Hr Hlabel.
  pose proof (filter_pipeline_Ok _ _ _ _ _ Hf) as (Hcol & _ & _ & ->).
  apply filter_In in Hr as [Hin Hpass].
  pose proof (built_row_label parse_datetime parsed df r Hbuild Hin) as Hpos.
  rewrite Hlabel in Hpos.
  destruct (build_cell parse_datetime parsed df i record archived_timestamp Hbuild Hi Hcol)
    as (r' & Hr' & Hcell).
  rewrite Hpos in Hr'. injection Hr' as <-.
  apply passes_In in Hpass as [Hdate _].
  apply passes_date_Time in Hdate as (t & Ht & _).
  change (column_of archived_timestamp) with "timestamp" in Hcell.
  rewrite Ht in Hcell.
  destruct Hbad as [Hnone|(v & Hv & Hparse)].
  - rewrite Hnone in Hcell. discriminate Hcell.
  - rewrite Hv in Hcell. simpl in Hcell. rewrite Hparse in Hcell. discriminate Hcell.
Qed.

(** X: with a selection of status codes, a capture without status code
    never comes through. *)
Theorem missing_status_excluded (parse_datetime : string -> option Z)
  (parsed : list ParsedRecord) (df df' : pd.DataFrame)
  (start_date end_date : date) (codes : list string)
  (i : nat) (record : ParsedRecord) :
  build parse_datetime parsed = Ok df ->
  filter_pipeline df start_date end_date codes = Ok df' ->
  codes <> [] ->
  parsed !! i = Some record ->
  field_value record archived_statuscode = None ->
  forall r, In r (pd.rows df') -> pd.label r <> i.
Proof.
  intros Hbuild Hf Hne Hi Hnone r Hr Hlabel.
  pose proof (filter_pipeline_Ok _ _ _ _ _ Hf) as (_ & _ & Hsc & ->).
  destruct Hsc as [Hsc|Hcol]; [congruence|].
  apply filter_In in Hr as [Hin Hpass].
  pose proof (built_row_label parse_datetime parsed df r Hbuild Hin) as Hpos.
  rewrite Hlabel in Hpos.
  destruct (build_cell parse_datetime parsed df i record archived_statuscode Hbuild Hi Hcol)
    as (r' & Hr' & Hcell).
  rewrite Hpos in Hr'. injection Hr' as <-.
  apply passes_In in Hpass as [_ [Hnil|Hstatus]]; [congruence|].
  unfold passes_status in Hstatus.
  change (column_of archived_statuscode) with "statuscode" in Hcell.
  rewrite Hcell, Hnone in Hstatus. discriminate Hstatus.
Qed.



(** * Further properties of the script *)

(** ** The outcomes of a query *)

Section Outcomes.

Variable RawCapture : Type.
Variable WaybackTweets_get : string -> result (list RawCapture).
Variable TweetsParser_parse :
  list RawCapture -> string -> list string -> result (list ParsedRecord).
Variable parse_datetime : string -> option Z.

Local Abbreviation run :=
  (query RawCapture WaybackTweets_get TweetsParser_parse parse_datetime).
Local Abbreviation table_of :=
  (filtered_table RawCapture TweetsParser_parse parse_datetime).

Implicit Types (username : string) (start_date end_date : date) (codes : list string).

(** Step 9 never raises; it draws the count, and then either the table with
    its download or the warning. *)
Lemma display_effects username (filtered_df : pd.DataFrame) :
  display username filtered_df
  = (Draw (st.success ("Found " +:+ str_nat (pd.len filtered_df)
                       +:+ " tweets in the specified range."))
     :: (if pd.empty filtered_df
         then [Draw (st.warning "No tweets match the specified filters.")]
         else [Draw (st.write "Filtered Archived Tweets:");
               Draw (st.dataframe filtered_df);
               Draw (st.download_button "Download Filtered Tweets as CSV"
                       (encode filtered_df)
                       (username +:+ "_archived_tweets.csv") "text/csv")]),
     Ok tt).
Proof.
  unfold display, seq_bind, emit. destruct (pd.empty filtered_df); reflexivity.
Qed.

(** A query that passed both checks: the announcement, the request, and
    then what the first failing stage, or the last stage, leaves. *)
Lemma query_outcome username start_date end_date codes :
  truthy_str username = true ->
  start_date <= end_date ->
  run username start_date end_date codes
  = Draw (st.info "Fetching archived tweets. Please wait...")
    :: Request username
    :: match WaybackTweets_get username with
       | Raise e => [Draw (st.error ("An error occurred: " +:+ str e))]
       | Ok [] => [Draw (st.warning "No archived tweets found for the given username.")]
       | Ok archived_tweets =>
           match table_of archived_tweets username start_date end_date codes with
           | Raise e => [Draw (st.error ("An error occurred: " +:+ str e))]
           | Ok filtered_df => fst (display username filtered_df)
           end
       end.
Proof.
  intros Hu Hle. unfold query. rewrite Hu. simpl negb. cbv iota.
  destruct (start_date >? end_date) eqn:Hgt; [lia|].
  unfold fetch_and_display, filtered_table.
  destruct (WaybackTweets_get username) as [[|capture captures]|e]; try reflexivity.
  unfold seq_bind at 1. simpl truthy_list. cbv iota.
  destruct (TweetsParser_parse (capture :: captures) username field_options)
    as [parsed|e]; [|reflexivity].
  unfold lift at 1, seq_bind at 1. simpl bind.
  destruct (build parse_datetime parsed) as [df|e]; [|reflexivity].
  unfold lift at 1, seq_bind at 1. simpl bind.
  destruct (filter_pipeline df start_date end_date codes) as [filtered_df|e]; [|reflexivity].
  unfold lift at 1, seq_bind at 1. rewrite display_effects. reflexivity.
Qed.

(** X: when the script asks the archive.  A run sends at most one request:
    exactly one, for the handle as typed, when the button was pressed, the
    handle is not empty and the start date is not after the end date; none
    otherwise.  Neither a failure of a later stage nor an empty result
    causes a second request. *)
Theorem requests_of_a_run username start_date end_date codes (button : bool) :
  List.filter is_request
    (app RawCapture WaybackTweets_get TweetsParser_parse parse_datetime
       username start_date end_date codes button)
  = if button && truthy_str username && (start_date <=? end_date)
    then [Request username] else [].
Proof.
  unfold app. rewrite !List.filter_app. simpl List.filter at 1 3.
  rewrite app_nil_r. simpl app. destruct button; [|reflexivity]. simpl andb.
  destruct (truthy_str username) eqn:Hu; [|unfold query; rewrite Hu; reflexivity].
  simpl andb. destruct (start_date <=? end_date) eqn:Hle.
  - apply Z.leb_le in Hle. rewrite (query_outcome _ _ _ _ Hu Hle).
    simpl. f_equal.
    destruct (WaybackTweets_get username) as [[|capture captures]|e]; try reflexivity.
    destruct (table_of _ _ _ _ _) as [df|e]; [|reflexivity].
    rewrite display_effects. simpl. destruct (pd.empty df); reflexivity.
  - unfold query. rewrite Hu. simpl negb. cbv iota.
    apply Z.leb_gt in Hle. destruct (start_date >? end_date) eqn:Hgt; [reflexivity|lia].
Qed.

Lemma has_column_columns (df : pd.DataFrame) (c : string) :
  has_column df c = true -> pd.columns df <> [].
Proof.
  unfold has_column. intros H Hnil. rewrite Hnil in H. discriminate H.
Qed.

Lemma table_of_columns (archived_tweets : list RawCapture) username start_date end_date
  codes (filtered_df : pd.DataFrame) :
  table_of archived_tweets username start_date end_date codes = Ok filtered_df ->
  pd.columns filtered_df <> [].
Proof.
  unfold filtered_table. intros H.
  destruct (TweetsParser_parse archived_tweets username field_options) as [parsed|e];
    [|discriminate]. simpl in H.
  destruct (build parse_datetime parsed) as [df|e]; [|discriminate]. simpl in H.
  apply filter_pipeline_Ok in H as (Hcol & _ & _ & ->).
  exact (has_column_columns df "timestamp" Hcol).
Qed.

(** X: a failing stage leaves one error banner.  When the archive client
    raises, or the parser, the builder or a filter raises on the captures it
    returned, the run consists of the announcement, the request and one
    error banner that carries the text of the exception; no count, no table
    and no download are drawn. *)
Theorem stage_failure_reported username start_date end_date codes (e : exn) :
  truthy_str username = true ->
  start_date <= end_date ->
  (WaybackTweets_get username = Raise e
   \/ exists archived_tweets,
        WaybackTweets_get username = Ok archived_tweets
        /\ archived_tweets <> []
        /\ table_of archived_tweets username start_date end_date codes = Raise e) ->
  run username start_date end_date codes
  = [Draw (st.info "Fetching archived tweets. Please wait...");
     Request username;
     Draw (st.error ("An error occurred: " +:+ str e))].
Proof.
  intros Hu Hle Hfail. rewrite (query_outcome _ _ _ _ Hu Hle).
  destruct Hfail as [->|(archived_tweets & -> & Hne & Htable)]; [reflexivity|].
  destruct archived_tweets as [|capture captures]; [congruence|].
  rewrite Htable. reflexivity.
Qed.

(** X: an account without captures.  When the archive returns the empty
    list, the run consists of the announcement, the request and the warning
    that no archived tweets were found; the parser is not called and
    nothing else is drawn. *)
Theorem no_captures_notice username start_date end_date codes :
  truthy_str username = true ->
  start_date <= end_date ->
  WaybackTweets_get username = Ok [] ->
  run username start_date end_date codes
  = [Draw (st.info "Fetching archived tweets. Please wait...");
     Request username;
     Draw (st.warning "No archived tweets found for the given username.")].
Proof.
  intros Hu Hle Hget. rewrite (query_outcome _ _ _ _ Hu Hle), Hget. reflexivity.
Qed.

(** X: a query with matches.  When the stages succeed and the filtered
    table has a row, the run draws, in this order, the announcement, the
    count of rows, the heading, the filtered table, and the download button
    whose bytes encode that table, whose file name is the handle followed by
    _archived_tweets.csv and whose type is text/csv. *)
Theorem matches_are_shown username start_date end_date codes
  (archived_tweets : list RawCapture) (filtered_df : pd.DataFrame) :
  truthy_str username = true ->
  start_date <= end_date ->
  WaybackTweets_get username = Ok archived_tweets ->
  archived_tweets <> [] ->
  table_of archived_tweets username start_date end_date codes = Ok filtered_df ->
  pd.rows filtered_df <> [] ->
  run username start_date end_date codes
  = [Draw (st.info "Fetching archived tweets. Please wait...");
     Request username;
     Draw (st.success ("Found " +:+ str_nat (length (pd.rows filtered_df))
                       +:+ " tweets in the specified range."));
     Draw (st.write "Filtered Archived Tweets:");
     Draw (st.dataframe filtered_df);
     Draw (st.download_button "Download Filtered Tweets as CSV"
             (list_byte_of_string (pd.to_csv filtered_df))
             (username +:+ "_archived_tweets.csv") "text/csv")].
Proof.
  intros Hu Hle Hget Hne Htable Hrows.
  rewrite (query_outcome _ _ _ _ Hu Hle), Hget.
  destruct archived_tweets as [|capture captures]; [congruence|].
  rewrite Htable, display_effects. simpl fst.
  pose proof (table_of_columns _ _ _ _ _ _ Htable) as Hcols.
  assert (Hempty : pd.empty filtered_df = false).
  { unfold pd.empty. destruct (pd.rows filtered_df); [congruence|].
    destruct (pd.columns filtered_df); [congruence|reflexivity]. }
  rewrite Hempty. reflexivity.
Qed.

(** X: the table and the download go together.  Whatever the inputs and
    whatever the collaborators do, a run either draws no table and offers no
    download, or draws one table, which has a row, and offers one download,
    whose bytes encode that table and whose file is named after the
    handle.  An empty table is never shown and never offered. *)
Theorem table_and_download_together username start_date end_date codes :
  (List.filter shows_table (run username start_date end_date codes) = []
   /\ List.filter offers_download (run username start_date end_date codes) = [])
  \/ exists filtered_df,
       pd.rows filtered_df <> []
       /\ List.filter shows_table (run username start_date end_date codes)
          = [Draw (st.dataframe filtered_df)]
       /\ List.filter offers_download (run username start_date end_date codes)
          = [Draw (st.download_button "Download Filtered Tweets as CSV"
                     (encode filtered_df)
                     (username +:+ "_archived_tweets.csv") "text/csv")].
Proof.
  destruct (truthy_str username) eqn:Hu.
  2:{ left. unfold query. rewrite Hu. split; reflexivity. }
  destruct (start_date <=? end_date) eqn:Hle.
  2:{ left. unfold query. rewrite Hu. simpl negb. cbv iota.
      apply Z.leb_gt in Hle. destruct (start_date >? end_date) eqn:Hgt; [|lia].
      split; reflexivity. }
  apply Z.leb_le in Hle. rewrite (query_outcome _ _ _ _ Hu Hle).
  destruct (WaybackTweets_get username) as [[|capture captures]|e];
    try (left; split; reflexivity).
  destruct (table_of (capture :: captures) username start_date end_date codes)
    as [filtered_df|e]; [|left; split; reflexivity].
  rewrite display_effects. simpl fst.
  destruct (pd.empty filtered_df) eqn:Hempty; [left; split; reflexivity|].
  right. exists filtered_df. split; [|split; reflexivity].
  unfold pd.empty in Hempty. destruct (pd.rows filtered_df); [discriminate|discriminate].
Qed.



End Outcomes.

(** ** The further properties on concrete inputs *)

Lemma stage_failure_reported_witness :
  query Sample.RawCapture (fun _ => Raise (Exception "Connection timed out"))
    Sample.parse Sample.parse_datetime "jack" Scenario.May_1 Scenario.May_31 []
  = [Draw (st.info "Fetching archived tweets. Please wait...");
     Request "jack";
     Draw (st.error "An error occurred: Connection timed out")].
Proof.
  apply (stage_failure_reported Sample.RawCapture
           (fun _ => Raise (Exception "Connection timed out"))
           Sample.parse Sample.parse_datetime "jack" Scenario.May_1 Scenario.May_31 []
           (Exception "Connection timed out")).
  - reflexivity.
  - vm_compute. discriminate.
  - left. reflexivity.
Defined.

Lemma no_captures_notice_witness :
  Sample.run [] "jack" Scenario.May_1 Scenario.May_31 ["200"]
  = [Draw (st.info "Fetching archived tweets. Please wait...");
     Request "jack";
     Draw (st.warning "No archived tweets found for the given username.")].
Proof.
  apply (no_captures_notice Sample.RawCapture (Sample.archive []) Sample.parse
           Sample.parse_datetime "jack" Scenario.May_1 Scenario.May_31 ["200"]).
  - reflexivity.
  - vm_compute. discriminate.
  - reflexivity.
Defined.

Lemma matches_are_shown_witness :
  exists filtered_df,
    Sample.run Scenario.April "jack" (Scenario.May_1 - 30) Scenario.May_1 ["200"]
    = [Draw (st.info "Fetching archived tweets. Please wait...");
       Request "jack";
       Draw (st.success ("Found " +:+ str_nat (length (pd.rows filtered_df))
                         +:+ " tweets in the specified range."));
       Draw (st.write "Filtered Archived Tweets:");
       Draw (st.dataframe filtered_df);
       Draw (st.download_button "Download Filtered Tweets as CSV"
               (list_byte_of_string (pd.to_csv filtered_df))
               "jack_archived_tweets.csv" "text/csv")].
Proof.
  eexists.
  eapply (matches_are_shown Sample.RawCapture (Sample.archive Scenario.April) Sample.parse
            Sample.parse_datetime "jack" (Scenario.May_1 - 30) Scenario.May_1 ["200"]).
  - reflexivity.
  - vm_compute. discriminate.
  - reflexivity.
  - discriminate.
  - vm_compute. reflexivity.
  - discriminate.
Defined.


Lemma unreadable_timestamp_excluded_witness :
  exists df df',
    build Sample.parse_datetime Cases.unreadable = Ok df
    /\ filter_pipeline df Scenario.May_1 Scenario.May_31 [] = Ok df'
    /\ forall r, In r (pd.rows df') -> pd.label r <> 0%nat.
Proof.
  destruct (build Sample.parse_datetime Cases.unreadable) as [df|e] eqn:Hbuild;
    [|vm_compute in Hbuild; discriminate Hbuild].
  destruct (filter_pipeline df Scenario.May_1 Scenario.May_31 []) as [df'|e] eqn:Hf.
  - exists df, df'. split; [reflexivity|]. split; [exact Hf|].
    apply (unreadable_timestamp_excluded Sample.parse_datetime Cases.unreadable df df'
             Scenario.May_1 Scenario.May_31 [] 0
             (Sample.capture "yesterday" "https://twitter.com/jack/status/20"
                "https://web.archive.org/web/2024/https://twitter.com/jack/status/20" "200")
             Hbuild Hf eq_refl).
    right. exists "yesterday". split; reflexivity.
  - exfalso. vm_compute in Hbuild. injection Hbuild as <-.
    vm_compute in Hf. discriminate Hf.
Defined.

Lemma missing_status_excluded_witness :
  exists df df',
    build Sample.parse_datetime Scenario.ragged = Ok df
    /\ filter_pipeline df Scenario.May_1 Scenario.May_31 ["200"] = Ok df'
    /\ forall r, In r (pd.rows df') -> pd.label r <> 1%nat.
Proof.
  destruct (build Sample.parse_datetime Scenario.ragged) as [df|e] eqn:Hbuild;
    [|vm_compute in Hbuild; discriminate Hbuild].
  destruct (filter_pipeline df Scenario.May_1 Scenario.May_31 ["200"]) as [df'|e] eqn:Hf.
  - exists df, df'. split; [reflexivity|]. split; [exact Hf|].
    apply (missing_status_excluded Sample.parse_datetime Scenario.ragged df df'
             Scenario.May_1 Scenario.May_31 ["200"] 1
             [(archived_timestamp, "20240503120000");
              (original_tweet_url, "https://twitter.com/jack/status/21");
              (archived_tweet_url,
               "https://web.archive.org/web/2024/https://twitter.com/jack/status/21")]
             Hbuild Hf).
    + discriminate.
    + reflexivity.
    + reflexivity.
  - exfalso. vm_compute in Hbuild. injection Hbuild as <-.
    vm_compute in Hf. discriminate Hf.
Defined.


Lemma build_complete_witness :
  exists df,
    build Sample.parse_datetime Scenario.April = Ok df
    /\ pd.columns df = output_columns
    /\ pd.len df = length Scenario.April
    /\ RecordTable df = true.
Proof.
  apply (build_complete Sample.parse_datetime Scenario.April).
  - discriminate.
  - reflexivity.
Defined.

(** ** Reading the export back *)

Section RoundTrip.

Implicit Types (s rest field : string) (record fields : list string) (st : reader_state).

Lemma join_app (l1 l2 : list string) : pd.join (l1 ++ l2) = pd.join l1 +:+ pd.join l2.
Proof.
  induction l1 as [|x l1 IH]; simpl; [reflexivity|].
  rewrite IH, append_assoc. reflexivity.
Qed.

Lemma join_concat (ll : list (list string)) :
  pd.join (map pd.join ll) = pd.join (concat ll).
Proof.
  induction ll as [|l ll IH]; simpl; [reflexivity|].
  rewrite join_app, IH. reflexivity.
Qed.

(** The text is the lines of the column names and of the values. *)
Lemma to_csv_lines (df : pd.DataFrame) :
  pd.to_csv df = pd.join (map pd.writerow (pd.columns df :: values_for_csv df)).
Proof.
  unfold pd.to_csv, values_for_csv. cbn [map pd.join fold_right]. f_equal.
  rewrite concat_map, <- join_concat, !map_map. f_equal.
  apply map_ext. intros chunk. unfold pd.save_chunk, chunk_values.
  rewrite map_map. reflexivity.
Qed.

(** A field written as it is, read up to the character that ends it. *)
Lemma read_plain s st field record (d : ascii) rest :
  st = StartField \/ st = InField ->
  d = pd.delimiter \/ d = pd.LF ->
  pd.needs_quotes s = false ->
  read_csv st field record (s +:+ String d rest)
  = read_csv InField (field +:+ s) record (String d rest).
Proof.
  intros Hst Hd. revert st field Hst.
  induction s as [|c s IH]; intros st field Hst Hs.
  - rewrite append_empty_r.
    destruct Hst as [->| ->]; destruct Hd as [->| ->]; reflexivity.
  - simpl in Hs. apply orb_false_elim in Hs as [Hc Hs].
    unfold pd.special in Hc.
    apply orb_false_elim in Hc as [Hc Hlf].
    apply orb_false_elim in Hc as [Hdel Hq].
    change (String c s +:+ String d rest) with (String c (s +:+ String d rest)).
    assert (Hstep : read_csv st field record (String c (s +:+ String d rest))
                    = read_csv InField (snoc field c) record (s +:+ String d rest)).
    { destruct Hst as [->| ->]; simpl; rewrite Hq, Hdel, Hlf; reflexivity. }
    rewrite Hstep, (IH InField (snoc field c) (or_intror eq_refl) Hs).
    unfold snoc. rewrite append_assoc. reflexivity.
Qed.

(** A field between quotes, read up to the character after the closing
    quote. *)
Lemma read_quoted s field record (d : ascii) rest :
  read_csv InQuotes field record (pd.quoted_tail s +:+ String d rest)
  = read_csv QuoteInQuotes (field +:+ s) record (String d rest).
Proof.
  revert field. induction s as [|c s IH]; intros field.
  - rewrite append_empty_r. reflexivity.
  - cbn [pd.quoted_tail]. destruct (Ascii.eqb c pd.quotechar) eqn:Hq.
    + apply Ascii.eqb_eq in Hq. subst c.
      change (read_csv InQuotes field record
                (String pd.quotechar (String pd.quotechar (pd.quoted_tail s)) +:+ String d rest))
        with (read_csv InQuotes (snoc field pd.quotechar) record
                (pd.quoted_tail s +:+ String d rest)).
      rewrite IH. unfold snoc. rewrite append_assoc. reflexivity.
    + change (String c (pd.quoted_tail s) +:+ String d rest)
        with (String c (pd.quoted_tail s +:+ String d rest)).
      cbn [read_csv]. rewrite Hq, IH. unfold snoc. rewrite append_assoc. reflexivity.
Qed.

Lemma read_field (f : string) record (d : ascii) rest :
  d = pd.delimiter \/ d = pd.LF ->
  read_csv StartField EmptyString record (pd.csv_field f +:+ String d rest)
  = read_csv InField f record (String d rest).
Proof.
  intros Hd. unfold pd.csv_field. destruct (pd.needs_quotes f) eqn:Hn.
  - change (String pd.quotechar (pd.quoted_tail f) +:+ String d rest)
      with (String pd.quotechar (pd.quoted_tail f +:+ String d rest)).
    change (read_csv StartField EmptyString record
              (String pd.quotechar (pd.quoted_tail f +:+ String d rest)))
      with (read_csv InQuotes EmptyString record (pd.quoted_tail f +:+ String d rest)).
    rewrite read_quoted. destruct Hd as [->| ->]; reflexivity.
  - rewrite (read_plain f StartField EmptyString record d rest (or_introl eq_refl) Hd Hn).
    reflexivity.
Qed.

Lemma read_fields fields record rest :
  fields <> [] ->
  read_csv StartField EmptyString record (pd.join_fields fields +:+ String pd.LF rest)
  = (record ++ fields) :: read_csv StartField EmptyString [] rest.
Proof.
  revert record. induction fields as [|f fields IH]; intros record Hne; [congruence|].
  destruct fields as [|f' fields].
  - cbn [pd.join_fields]. rewrite read_field by (right; reflexivity). reflexivity.
  - change (pd.join_fields (f :: f' :: fields))
      with (pd.csv_field f +:+ String pd.delimiter (pd.join_fields (f' :: fields))).
    rewrite append_assoc.
    change (String pd.delimiter (pd.join_fields (f' :: fields)) +:+ String pd.LF rest)
      with (String pd.delimiter (pd.join_fields (f' :: fields) +:+ String pd.LF rest)).
    rewrite read_field by (left; reflexivity).
    change (read_csv InField f record (String pd.delimiter ?tail))
      with (read_csv StartField EmptyString (record ++ [f]) tail).
    rewrite IH by discriminate. rewrite <- app_assoc. reflexivity.
Qed.

(** A whole line, a row of one empty field included. *)
Lemma read_writerow fields rest :
  fields <> [] ->
  read_csv StartField EmptyString [] (pd.writerow fields +:+ rest)
  = fields :: read_csv StartField EmptyString [] rest.
Proof.
  intros Hne.
  assert (Hjoin : read_csv StartField EmptyString []
                    ((pd.join_fields fields +:+ String pd.LF EmptyString) +:+ rest)
                  = fields :: read_csv StartField EmptyString [] rest).
  { rewrite append_assoc.
    change (String pd.LF EmptyString +:+ rest) with (String pd.LF rest).
    rewrite (read_fields fields [] _ Hne). reflexivity. }
  unfold pd.writerow. destruct fields as [|[|c f] [|f' fields]];
    first [exact Hjoin | reflexivity].
Qed.

Lemma read_lines (lines : list (list string)) rest :
  Forall (fun fields => fields <> []) lines ->
  read_csv StartField EmptyString [] (pd.join (map pd.writerow lines) +:+ rest)
  = lines ++ read_csv StartField EmptyString [] rest.
Proof.
  induction 1 as [|fields lines Hne _ IH]; [reflexivity|].
  cbn [map pd.join fold_right app]. rewrite append_assoc.
  change ((fields :: lines) ++ ?tail) with (fields :: (lines ++ tail)).
  rewrite <- IH. apply read_writerow. exact Hne.
Qed.

Lemma format_cells (fmts : list pd.datetime_format) (cells : list pd.cell) :
  length fmts = length cells ->
  Forall2 cell_text cells (zip_with pd.format_cell fmts cells).
Proof.
  revert fmts. induction cells as [|c cells IH]; intros [|fmt fmts] Hlen;
    try discriminate; cbn [zip_with]; constructor.
  - destruct c; simpl; eauto.
  - apply IH. injection Hlen as Hlen. exact Hlen.
Qed.

Lemma chunk_values_text (ncols : nat) (chunk : list pd.row) :
  Forall (fun r => length (pd.cells r) = ncols) chunk ->
  Forall2 (fun r fields => Forall2 cell_text (pd.cells r) fields)
    chunk (chunk_values ncols chunk).
Proof.
  intros Hrect. unfold chunk_values.
  set (fmts := map _ (seq 0 ncols)).
  assert (Hlen : length fmts = ncols)
    by (unfold fmts; rewrite length_map, length_seq; reflexivity).
  clearbody fmts. induction Hrect as [|r chunk Hr _ IH]; cbn [map]; constructor.
  - apply format_cells. congruence.
  - exact IH.
Qed.

Lemma values_text_chunks (ncols : nat) (cs : list (list pd.row)) :
  Forall (fun r => length (pd.cells r) = ncols) (concat cs) ->
  Forall2 (fun r fields => Forall2 cell_text (pd.cells r) fields)
    (concat cs) (concat (map (chunk_values ncols) cs)).
Proof.
  induction cs as [|chunk cs IH]; cbn [concat map]; intros Hrect; [constructor|].
  apply List.Forall_app in Hrect as [Hchunk Hrest].
  apply Forall2_app; [apply chunk_values_text; exact Hchunk|apply IH; exact Hrest].
Qed.

Lemma rectangular_rows (df : pd.DataFrame) :
  rectangular df = true ->
  Forall (fun r => length (pd.cells r) = length (pd.columns df)) (pd.rows df).
Proof.
  unfold rectangular. intros Hrect. apply List.Forall_forall. intros r Hr.
  pose proof (proj1 (forallb_forall _ _) Hrect r Hr) as H.
  apply Nat.eqb_eq in H. exact H.
Qed.

(** The values written for a table stand, row by row and cell by cell, for
    the cells of the table. *)
Lemma values_for_csv_text (df : pd.DataFrame) :
  rectangular df = true ->
  Forall2 (fun r fields => Forall2 cell_text (pd.cells r) fields)
    (pd.rows df) (values_for_csv df).
Proof.
  intros Hrect. apply rectangular_rows in Hrect. unfold values_for_csv.
  set (n := pd.chunksize (length (pd.columns df))).
  pose proof (concat_chunks n n [] (pd.rows df)) as Hconcat. simpl in Hconcat.
  rewrite <- Hconcat at 1. apply values_text_chunks. rewrite Hconcat. exact Hrect.
Qed.




End RoundTrip.

(** X: the download reads back as the table.  For a table with at least two
    columns and a cell under every column, reading the downloaded bytes as
    delimited text gives first the column names and then one record per
    row, in order, with one field per cell: a string cell reads back as the
    very string, whatever commas, quotes or line breaks it holds, a null as
    the empty field, a timestamp as its formatted text. *)
Theorem csv_round_trip (df : pd.DataFrame) :
  rectangular df = true ->
  (2 <= length (pd.columns df))%nat ->
  exists values,
    reader (string_of_list_byte (encode df)) = pd.columns df :: values
    /\ Forall2 (fun r fields => Forall2 cell_text (pd.cells r) fields)
         (pd.rows df) values.
Proof.
  intros Hrect Hcols. exists (values_for_csv df).
  pose proof (values_for_csv_text df Hrect) as Htext.
  split; [|exact Htext].
  unfold encode, pd.encode_utf8, reader.
  rewrite string_of_list_byte_of_string, to_csv_lines.
  rewrite <- (append_empty_r (pd.join _)), read_lines.
  - cbn [read_csv]. rewrite app_nil_r. reflexivity.
  - constructor.
    + intros Hnil. rewrite Hnil in Hcols. simpl in Hcols. lia.
    + pose proof (rectangular_rows df Hrect) as Hrows. clear Hrect. revert Hrows.
      induction Htext as [|r fields rows values Hr _ IH]; intros Hrows; constructor.
      * apply List.Forall_cons_iff in Hrows as [Hlen _]. intros ->.
        apply Forall2_length in Hr. simpl in Hr. lia.
      * apply IH. apply List.Forall_cons_iff in Hrows as [_ Hrows]. exact Hrows.
Qed.

Lemma csv_round_trip_witness :
  exists values,
    reader (string_of_list_byte (encode Scenario.A)) = pd.columns Scenario.A :: values
    /\ Forall2 (fun r fields => Forall2 cell_text (pd.cells r) fields)
         (pd.rows Scenario.A) values.
Proof.
  apply (csv_round_trip Scenario.A).
  - reflexivity.
  - simpl. lia.
Defined.

(** ** The export *)


